(** * calculator.py: net-of-tax salary pipeline

    A shallow embedding of [src/calculator.py].

    Numbers.  The program computes with Python [int] (the gross income read
    from the user-data file) and [float] (every configuration value, every
    rate and every amount derived from them).  Integers are modelled as [Z];
    finite floats are modelled as exact rationals [Q], which is the [decimal]
    reading the specification gives to all amounts.  The conversion of the
    [int] income to a [float] in the subtraction of line 181, which raises
    [OverflowError] on an [int] that is too large, is modelled
    ([float_of_int]).  Binary64 rounding of the intermediate products is
    outside the rational model, and so are the three floats that are not
    numbers of [Q] (nan and the two infinities); the module [Binary64] at the
    end of the definitions replays the arithmetic on IEEE-754 doubles,
    rounding included, for concrete inputs.

    Control.  [exit()] after [print('Parameter Error')] and an uncaught
    exception both end the process that runs them; they are the two failure
    cases of the [outcome] monad.  The three processes of the program and the
    two queues between them are a transition system at the end of
    the definitions. *)

From Stdlib Require Import ZArith QArith Qround Qminmax Lqa Lia.
From Stdlib Require Import List String Ascii Bool DecimalString.
From Stdlib Require Import Permutation Sorted.
From Stdlib Require Import Floats Uint63.
Import ListNotations.

Open Scope Q_scope.

(** Decimal literals of the program that are not doubles are read as the
    nearest double, as Python reads them. *)
Set Warnings "-inexact-float".

(* ================================================================= *)
(** ** Process outcomes *)

(** What a call ends with: a value, [exit()] (always preceded by
    [print('Parameter Error')] in this program), or an exception nobody
    catches. *)
Inductive outcome (A : Type) : Type :=
| Ret (a : A)
| Exit
| Raised.

Arguments Ret {A} a.
Arguments Exit {A}.
Arguments Raised {A}.

Definition bind {A B : Type} (m : outcome A) (k : A -> outcome B) : outcome B :=
  match m with
  | Ret a => k a
  | Exit => Exit
  | Raised => Raised
  end.

Notation "x <- m ;; k" := (bind m (fun x => k))
  (at level 61, m at next level, right associativity).

Definition returns {A : Type} (m : outcome A) : Prop := exists a, m = Ret a.

(** The call ends the process, one way or the other. *)
Definition fails {A : Type} (m : outcome A) : Prop := m = Exit \/ m = Raised.

(* ================================================================= *)
(** ** The tax table (lines 11-28) *)

Record IncomeTaxQuickLookupItem : Type := Item {
  start_point : Q;
  tax_rate : Q;
  quick_subtractor : Q
}.

Definition INCOME_TAX_START_POINT : Q := 3500.

Definition INCOME_TAX_QUICK_LOOKUP_TABLE : list IncomeTaxQuickLookupItem :=
  [ Item 80000 0.45 13505;
    Item 55000 0.35 5505;
    Item 35000 0.30 2755;
    Item 9000 0.25 1005;
    Item 4500 0.20 555;
    Item 1500 0.1 105;
    Item 0 0.03 0 ].

(* ================================================================= *)
(** ** Configuration (class [Config], lines 83-123) *)

(** What [float(self.config[key])] makes of the text a key is bound to.
    - [Number v]: [float] returns the finite double [v] ([3000], [0.08]).
    - [NotNumber]: [float] raises [ValueError] ([abc], the empty text).
    - [Unreadable]: [self.config[key]] itself raises, before [float] is
      called.  [ConfigParser] interpolates the text when it is looked up,
      and a [%] that is followed by neither [%] nor [(], as in [8%], raises
      [configparser.InterpolationSyntaxError]; a reference [%(name)s] to a
      name the section does not have raises
      [InterpolationMissingOptionError].  Both derive from
      [configparser.Error], not from [ValueError] or [KeyError].
    A text that [float] reads as nan or as an infinity ([nan], [inf],
    [1e999]) is returned by [float] without any exception; it is a float
    that is not a number of [Q], and sections with such a text among the
    keys read are not values of this type. *)
Inductive config_value : Type :=
| Number (v : Q)
| NotNumber
| Unreadable.

(** The section of the configuration file chosen by [_read_config]: its
    keys and what each is bound to.  A key that is not bound raises
    [KeyError]. *)
Definition section : Type := list (string * config_value).

Fixpoint section_get (s : section) (key : string) : option config_value :=
  match s with
  | [] => None
  | (k, v) :: rest => if String.eqb k key then Some v else section_get rest key
  end.

(** [_get_config]: [ValueError] and [KeyError] print the message and leave;
    any other exception goes through the [except] clause. *)
Definition _get_config (config : section) (key : string) : outcome Q :=
  match section_get config key with
  | Some (Number v) => Ret v
  | Some NotNumber => Exit
  | Some Unreadable => Raised
  | None => Exit
  end.

Definition social_insurance_baseline_low (config : section) : outcome Q :=
  _get_config config "JiShuL".

Definition social_insurance_baseline_high (config : section) : outcome Q :=
  _get_config config "JiShuH".

(** Python's [sum] of a list: a left fold that starts from [0]. *)
Definition py_sum (l : list Q) : Q := fold_left Qplus l 0.

Definition social_insurance_total_rate (config : section) : outcome Q :=
  yanglao <- _get_config config "YangLao" ;;
  yiliao <- _get_config config "YiLiao" ;;
  shiye <- _get_config config "ShiYe" ;;
  gongshang <- _get_config config "GongShang" ;;
  shengyu <- _get_config config "ShengYu" ;;
  gongjijin <- _get_config config "GongJiJin" ;;
  Ret (py_sum [yanglao; yiliao; shiye; gongshang; shengyu; gongjijin]).

(** The keys the program reads. *)
Definition rate_keys : list string :=
  ["YangLao"; "YiLiao"; "ShiYe"; "GongShang"; "ShengYu"; "GongJiJin"]%string.

(** The list that [sum] is given: the keys are read from left to right and
    the first that is not a number ends the evaluation. *)
Fixpoint get_configs (config : section) (keys : list string)
  : outcome (list Q) :=
  match keys with
  | [] => Ret []
  | key :: rest =>
      v <- _get_config config key ;;
      vs <- get_configs config rest ;;
      Ret (v :: vs)
  end.


(** A key that is missing or whose text [float] refuses: [_get_config]
    catches the exception. *)
Definition key_exits (config : section) (key : string) : Prop :=
  section_get config key = None \/ section_get config key = Some NotNumber.

(** A key whose text cannot even be looked up: [_get_config] does not catch
    the exception. *)
Definition key_raises (config : section) (key : string) : Prop :=
  section_get config key = Some Unreadable.

(** A key that does not give a number. *)
Definition key_unusable (config : section) (key : string) : Prop :=
  key_exits config key \/ key_raises config key.

(** A key that gives a number. *)
Definition key_is_number (config : section) (key : string) : Prop :=
  exists v, section_get config key = Some (Number v).

(** The three properties all return: the configuration is usable. *)
Definition resolves (config : section)
  (base_floor base_ceiling combined_rate : Q) : Prop :=
  social_insurance_baseline_low config = Ret base_floor /\
  social_insurance_baseline_high config = Ret base_ceiling /\
  social_insurance_total_rate config = Ret combined_rate.

(* ================================================================= *)
(** ** ['{:.2f}'.format] *)

(** Nearest integer, ties to the even one. *)
Definition round_half_even (x : Q) : Z :=
  let f := Qfloor x in
  match Qcompare (x - inject_Z f) (1 # 2) with
  | Lt => f
  | Gt => (f + 1)%Z
  | Eq => if Z.even f then f else (f + 1)%Z
  end.

Definition digit (n : Z) : ascii := ascii_of_nat (48 + Z.to_nat n).

Definition two_digits (n : Z) : string :=
  String (digit (n / 10)) (String (digit (n mod 10)) EmptyString).

(** Fixed-point notation with two decimals; the sign is that of the value
    formatted, also when the digits round to zero. *)
Definition format_2f (x : Q) : string :=
  let cents := Z.abs (round_half_even (x * 100)) in
  ((if Qlt_le_dec x 0 then "-" else "")
   ++ NilZero.string_of_uint (N.to_uint (Z.to_N (cents / 100)))
   ++ "." ++ two_digits (cents mod 100))%string.

(* ================================================================= *)
(** ** The calculator (class [IncomeTaxCalculator], lines 153-211) *)

(** An [int] operand of an arithmetic operation with a [float] is converted
    to a [float] first.  The conversion rounds to the nearest double, ties
    to even, and raises [OverflowError] when that is not a finite double:
    for every [int] of absolute value [2^1024 - 2^970] or more.  (Comparing
    an [int] with a [float], lines 165 and 168, converts nothing and never
    raises.)  The [int] read from a line has no bound: [int] takes a text
    of hundreds of digits.  Of an [int] that converts, the model keeps the
    exact value, as it keeps the exact value of every sum and product. *)
Definition int_too_large (n : Z) : bool :=
  (2 ^ 1024 - 2 ^ 970 <=? Z.abs n)%Z.

Definition float_of_int (n : Z) : outcome Q :=
  if int_too_large n then Raised else Ret (inject_Z n).

(** [calc_social_insurance_money]: every [config.x] is a property that reads
    and converts its key when it is evaluated, so the keys are read in the
    order of the text, and only on the branch taken.  The product of line
    172 converts an [income] that lies between two finite doubles, floor and
    ceiling, and so is not too large. *)
Definition calc_social_insurance_money (config : section) (income : Z)
  : outcome Q :=
  low <- social_insurance_baseline_low config ;;
  if Qlt_le_dec (inject_Z income) low then
    low' <- social_insurance_baseline_low config ;;
    rate <- social_insurance_total_rate config ;;
    Ret (low' * rate)
  else
    high <- social_insurance_baseline_high config ;;
    if Qlt_le_dec high (inject_Z income) then
      high' <- social_insurance_baseline_high config ;;
      rate <- social_insurance_total_rate config ;;
      Ret (high' * rate)
    else
      rate <- social_insurance_total_rate config ;;
      Ret (inject_Z income * rate).

(** The [for] loop of [calc_income_tax_and_remain]: the first item of the
    table, in the order written, with [taxable_part > item.start_point]. *)
Fixpoint lookup (table : list IncomeTaxQuickLookupItem) (taxable_part : Q)
  : option IncomeTaxQuickLookupItem :=
  match table with
  | [] => None
  | item :: rest =>
      if Qlt_le_dec (start_point item) taxable_part then Some item
      else lookup rest taxable_part
  end.

Definition quick_tax (item : IncomeTaxQuickLookupItem) (taxable_part : Q) : Q :=
  taxable_part * tax_rate item - quick_subtractor item.

(** [calc_income_tax_and_remain].  Line 181 subtracts a [float] from the
    [int] income, on every branch of the insurance. *)
Definition calc_income_tax_and_remain (config : section) (income : Z)
  : outcome (string * string) :=
  social_insurance_money <- calc_social_insurance_money config income ;;
  income_as_float <- float_of_int income ;;
  let real_income := income_as_float - social_insurance_money in
  let taxable_part := real_income - INCOME_TAX_START_POINT in
  match lookup INCOME_TAX_QUICK_LOOKUP_TABLE taxable_part with
  | Some item =>
      let tax := quick_tax item taxable_part in
      Ret (format_2f tax, format_2f (real_income - tax))
  | None => Ret ("0.00"%string, format_2f real_income)
  end.

(** The same computation before the two amounts are formatted: the tax and
    the remainder as numbers. *)
Definition income_tax_and_remain (config : section) (income : Z)
  : outcome (Q * Q) :=
  social_insurance_money <- calc_social_insurance_money config income ;;
  income_as_float <- float_of_int income ;;
  let real_income := income_as_float - social_insurance_money in
  let taxable_part := real_income - INCOME_TAX_START_POINT in
  match lookup INCOME_TAX_QUICK_LOOKUP_TABLE taxable_part with
  | Some item =>
      let tax := quick_tax item taxable_part in
      Ret (tax, real_income - tax)
  | None => Ret (0, real_income)
  end.

(** The intermediate amounts of [calc_income_tax_and_remain]. *)
Definition real_income_of (income : Z) (social_insurance_money : Q) : Q :=
  inject_Z income - social_insurance_money.

Definition taxable_part_of (income : Z) (social_insurance_money : Q) : Q :=
  real_income_of income social_insurance_money - INCOME_TAX_START_POINT.

(** Closed forms of the two amounts once the configuration has been read:
    the insurance as a function of the three values, the tax as a function of
    the real income.  [calc_social_insurance_money_resolved] and
    [income_tax_and_remain_resolved] relate them to the calculator. *)
Definition insurance_of (low high rate : Q) (income : Z) : Q :=
  if Qlt_le_dec (inject_Z income) low then low * rate
  else if Qlt_le_dec high (inject_Z income) then high * rate
       else inject_Z income * rate.

Definition tax_of (real_income : Q) : Q :=
  match lookup INCOME_TAX_QUICK_LOOKUP_TABLE
               (real_income - INCOME_TAX_START_POINT) with
  | Some item => quick_tax item (real_income - INCOME_TAX_START_POINT)
  | None => 0
  end.

(** The row [calculate] returns. *)
Record row : Type := Row {
  row_employee_id : string;
  row_income : Z;
  row_social_insurance_money : string;
  row_tax : string;
  row_remain : string;
  row_time : string
}.

(** [calculate]; [now] is what [datetime.now().strftime(...)] gives. *)
Definition calculate (config : section) (now : string)
  (employee_id : string) (income : Z) : outcome row :=
  social_insurance_money <- calc_social_insurance_money config income ;;
  tax_remain <- calc_income_tax_and_remain config income ;;
  Ret (Row employee_id income (format_2f social_insurance_money)
           (fst tax_remain) (snd tax_remain) now).

(** The row in closed form. *)
Definition row_of (low high rate : Q) (now employee_id : string) (income : Z)
  : row :=
  Row employee_id income
      (format_2f (insurance_of low high rate income))
      (format_2f
         (tax_of (real_income_of income (insurance_of low high rate income))))
      (format_2f
         (real_income_of income (insurance_of low high rate income)
          - tax_of (real_income_of income (insurance_of low high rate income))))
      now.

(* ================================================================= *)
(** ** The progressive schedule the quick subtractors stand for *)





(** Tables written from the highest lower bound down. *)
Definition descending (table : list IncomeTaxQuickLookupItem) : Prop :=
  StronglySorted (fun a b => start_point b < start_point a) table.

(** The bracket the specification selects: greatest lower bound strictly
    below the amount, among the brackets of the table. *)
Definition greatest_below (table : list IncomeTaxQuickLookupItem)
  (taxable_amount : Q) (bracket : IncomeTaxQuickLookupItem) : Prop :=
  In bracket table /\
  start_point bracket < taxable_amount /\
  forall other, In other table -> start_point other < taxable_amount ->
                start_point other <= start_point bracket.

(** [clamp] of the specification. *)
Definition clamp (x lo hi : Q) : Q := Qmax lo (Qmin x hi).

(* ================================================================= *)
(** ** The user-data reader (class [UserData], lines 128-150) *)

Definition record : Type := (string * Z)%type.

(** [str.split(',')]. *)
Fixpoint split_comma (s : string) : list string :=
  match s with
  | EmptyString => [EmptyString]
  | String c rest =>
      if Ascii.eqb c "," then EmptyString :: split_comma rest
      else match split_comma rest with
           | field :: fields => String c field :: fields
           | [] => [String c EmptyString]
           end
  end.

Section UserData.

(** The two builtins the reader calls on the text of a line: [str.strip]
    and [int], which returns or raises [ValueError]. *)
Variable py_strip : string -> string.
Variable py_int : string -> option Z.

(** One turn of the loop of [_read_users_data].  The unpacking of the
    split line is outside the [try]: a line that does not have two fields
    raises a [ValueError] nobody catches. *)
Definition read_line (line : string) : outcome record :=
  match split_comma (py_strip line) with
  | [employee_id; income_string] =>
      match py_int income_string with
      | Some income => Ret (employee_id, income)
      | None => Exit
      end
  | _ => Raised
  end.

Fixpoint _read_users_data (lines : list string) : outcome (list record) :=
  match lines with
  | [] => Ret []
  | line :: rest =>
      item <- read_line line ;;
      userdata <- _read_users_data rest ;;
      Ret (item :: userdata)
  end.

(** A line the reader cannot take: it does not split into two fields, or
    its second field is not an integer for [int]. *)
Definition parse_failure (line : string) : Prop :=
  List.length (split_comma (py_strip line)) <> 2%nat \/
  exists employee_id income_string,
    split_comma (py_strip line) = [employee_id; income_string] /\
    py_int income_string = None.

End UserData.

(** The builtins on plain ASCII text, to run the reader on examples:
    whitespace is the six ASCII blanks, an integer is an optional minus sign
    and decimal digits. *)
Definition is_blank (c : ascii) : bool :=
  let n := nat_of_ascii c in
  ((9 <=? n) && (n <=? 13) || (n =? 32))%nat.

Fixpoint lstrip (s : string) : string :=
  match s with
  | String c rest => if is_blank c then lstrip rest else s
  | EmptyString => EmptyString
  end.

Fixpoint rstrip (s : string) : string :=
  match s with
  | EmptyString => EmptyString
  | String c rest =>
      match rstrip rest with
      | EmptyString => if is_blank c then EmptyString else String c EmptyString
      | kept => String c kept
      end
  end.

Definition ascii_strip (s : string) : string := rstrip (lstrip s).

Definition decimal_int (s : string) : option Z :=
  option_map Z.of_int (NilZero.int_of_string s).

(* ================================================================= *)
(** ** The three processes and the two queues (lines 147-150, 201-211,
       225-234, 236-255) *)

Inductive source_state : Type :=
| SourceReading (lines : list string)
    (** [run] has not yet got its list from [_read_users_data] *)
| SourcePutting (items : list record)
    (** in the [for] loop of [run]: the items still to put; none: finished *)
| SourceDead.
    (** [_read_users_data] ended the process *)

Inductive calculator_state : Type :=
| CalculatorWaiting
    (** in [userdata_queue.get(timeout=1)] *)
| CalculatorHolding (result : row)
    (** [calculate] has returned, [export_queue.put] is next *)
| CalculatorReturned
    (** [queue.Empty] was raised: [run] returned *)
| CalculatorDead (item : record).
    (** [calculate] ended the process while working on [item] *)

Inductive exporter_state : Type :=
| ExporterWaiting
| ExporterClosed.

Record pipeline : Type := Pipeline {
  source : source_state;
  userdata_queue : list record;
  calculators : list calculator_state;
  export_queue : list row;
  exporter : exporter_state;
  file : list row
}.

(** The [run] of a process is over. *)
Definition source_ended (src : source_state) : bool :=
  match src with
  | SourcePutting [] => true
  | SourceDead => true
  | _ => false
  end.

Definition calculator_ended (c : calculator_state) : bool :=
  match c with
  | CalculatorReturned => true
  | CalculatorDead _ => true
  | _ => false
  end.

Section Pipeline.

Variable py_strip : string -> string.
Variable py_int : string -> option Z.
Variable config : section.

Definition after_reading (lines : list string) : source_state :=
  match _read_users_data py_strip py_int lines with
  | Ret items => SourcePutting items
  | Exit => SourceDead
  | Raised => SourceDead
  end.

Definition after_calculating (now : string) (item : record)
  : calculator_state :=
  match calculate config now (fst item) (snd item) with
  | Ret result => CalculatorHolding result
  | Exit => CalculatorDead item
  | Raised => CalculatorDead item
  end.

(** One step of one process.  A [get(timeout=1)] that finds its queue
    empty may give up: how long the other processes take to fill it is
    not bounded by anything in the program, so the second that passes is
    not modelled, only that the queue is empty when [queue.Empty] is
    raised. *)
Inductive step : pipeline -> pipeline -> Prop :=
| step_read lines qa cs qb e f :
    step (Pipeline (SourceReading lines) qa cs qb e f)
         (Pipeline (after_reading lines) qa cs qb e f)
| step_put item items qa cs qb e f :
    step (Pipeline (SourcePutting (item :: items)) qa cs qb e f)
         (Pipeline (SourcePutting items) (qa ++ [item]) cs qb e f)
| step_calculate now src item qa cs1 cs2 qb e f :
    step (Pipeline src (item :: qa) (cs1 ++ CalculatorWaiting :: cs2) qb e f)
         (Pipeline src qa (cs1 ++ after_calculating now item :: cs2) qb e f)
| step_calculator_timeout src cs1 cs2 qb e f :
    step (Pipeline src [] (cs1 ++ CalculatorWaiting :: cs2) qb e f)
         (Pipeline src [] (cs1 ++ CalculatorReturned :: cs2) qb e f)
| step_export src qa cs1 result cs2 qb e f :
    step (Pipeline src qa (cs1 ++ CalculatorHolding result :: cs2) qb e f)
         (Pipeline src qa (cs1 ++ CalculatorWaiting :: cs2) (qb ++ [result])
                   e f)
| step_write src qa cs result qb f :
    step (Pipeline src qa cs (result :: qb) ExporterWaiting f)
         (Pipeline src qa cs qb ExporterWaiting (f ++ [result]))
| step_exporter_timeout src qa cs f :
    step (Pipeline src qa cs [] ExporterWaiting f)
         (Pipeline src qa cs [] ExporterClosed f).

Inductive reachable (s0 : pipeline) : pipeline -> Prop :=
| reach_start : reachable s0 s0
| reach_step s s' : reachable s0 s -> step s s' -> reachable s0 s'.

(** The two steps in which a [get] gives up although a process that fills
    its queue is still running: a calculator while the source has not
    ended, the exporter while a calculator has not ended. *)
Inductive gives_up_early : pipeline -> pipeline -> Prop :=
| calculator_gives_up_early src cs1 cs2 qb e f :
    source_ended src = false ->
    gives_up_early
      (Pipeline src [] (cs1 ++ CalculatorWaiting :: cs2) qb e f)
      (Pipeline src [] (cs1 ++ CalculatorReturned :: cs2) qb e f)
| exporter_gives_up_early src qa cs f :
    forallb calculator_ended cs = false ->
    gives_up_early (Pipeline src qa cs [] ExporterWaiting f)
                   (Pipeline src qa cs [] ExporterClosed f).

(** Runs in which every process is given the time it needs: no second
    passes on an empty queue while a producer of that queue is at work. *)
Definition patient_step (s s' : pipeline) : Prop :=
  step s s' /\ ~ gives_up_early s s'.

Inductive patient_reachable (s0 : pipeline) : pipeline -> Prop :=
| patient_start : patient_reachable s0 s0
| patient_next s s' :
    patient_reachable s0 s -> patient_step s s' -> patient_reachable s0 s'.

(** [__main__] with [workers] calculator processes on the two queues (the
    program starts one). *)
Definition initial (workers : nat) (lines : list string) : pipeline :=
  Pipeline (SourceReading lines) [] (repeat CalculatorWaiting workers) []
           ExporterWaiting [].

(** Every [run] is over: the source has put its last item or has died,
    every calculator has returned or died, the exporter has closed its file.
    This is about the three [run] methods, not about the processes of the
    operating system: a process that has put items on a
    [multiprocessing.Queue] ends only when the feeder thread of the queue
    has written them to the pipe, which waits for a reader once the pipe is
    full, and the [join] of line 253 waits for the process.  With both
    queues empty nothing is left to write. *)
Definition terminated (s : pipeline) : bool :=
  source_ended (source s)
  && forallb calculator_ended (calculators s)
  && match exporter s with
     | ExporterClosed => true
     | ExporterWaiting => false
     end.

(** Where the employee ids are. *)
Definition emitted (s : pipeline) : list string :=
  map row_employee_id (file s).

Definition source_ids (src : source_state) : list string :=
  match src with
  | SourceReading lines =>
      match _read_users_data py_strip py_int lines with
      | Ret items => map fst items
      | _ => []
      end
  | SourcePutting items => map fst items
  | SourceDead => []
  end.

Definition held_ids (c : calculator_state) : list string :=
  match c with
  | CalculatorHolding result => [row_employee_id result]
  | _ => []
  end.

Definition lost_ids (c : calculator_state) : list string :=
  match c with
  | CalculatorDead item => [fst item]
  | _ => []
  end.

(** Ids not yet written that a process or a queue still has. *)
Definition upstream (s : pipeline) : list string :=
  source_ids (source s)
  ++ map fst (userdata_queue s)
  ++ flat_map held_ids (calculators s)
  ++ map row_employee_id (export_queue s).

(** Ids taken from the input queue by a calculator that died on them. *)
Definition lost (s : pipeline) : list string :=
  flat_map lost_ids (calculators s).

(** No calculator has taken anything from the input queue. *)
Definition calculator_idle (c : calculator_state) : bool :=
  match c with
  | CalculatorWaiting => true
  | CalculatorReturned => true
  | _ => false
  end.


(** Nothing has moved: the source is still reading or has got its list, the
    queues are empty, no calculator has taken a record, the file is empty. *)
Definition nothing_moves (lines : list string) (s : pipeline) : Prop :=
  (source s = SourceReading lines \/ source s = after_reading lines) /\
  userdata_queue s = [] /\
  forallb calculator_idle (calculators s) = true /\
  export_queue s = [] /\
  file s = [].


End Pipeline.

(* ================================================================= *)
(** ** The arithmetic on IEEE-754 doubles *)

(** The calculator once more, on the kernel's binary64 numbers instead of
    rationals, with the three configuration values already read: any
    three doubles, nan and the infinities included.  An [int] below [2^53]
    in absolute value converts to a double without rounding, which is all
    [of_int] is used for. *)
Module Binary64.

Record item : Type := Bracket {
  start_point : float;
  tax_rate : float;
  quick_subtractor : float
}.

Definition INCOME_TAX_START_POINT : float := 3500%float.

Definition INCOME_TAX_QUICK_LOOKUP_TABLE : list item :=
  [ Bracket 80000 0.45 13505;
    Bracket 55000 0.35 5505;
    Bracket 35000 0.30 2755;
    Bracket 9000 0.25 1005;
    Bracket 4500 0.20 555;
    Bracket 1500 0.1 105;
    Bracket 0 0.03 0 ]%float.

Definition of_int (n : Z) : float :=
  if (0 <=? n)%Z then PrimFloat.of_uint63 (Uint63.of_Z n)
  else PrimFloat.opp (PrimFloat.of_uint63 (Uint63.of_Z (- n))).

(** The rational a finite double is. *)
Definition exact_value (sign : bool) (mantissa : positive) (exponent : Z) : Q :=
  (if sign then -1 else 1) * inject_Z (Z.pos mantissa) * 2 ^ exponent.

(** ['{:.2f}'.format] of a double: the decimal nearest to its exact value. *)
Definition format_double (x : float) : string :=
  match Prim2SF x with
  | S754_zero sign => if sign then "-0.00" else "0.00"
  | S754_infinity sign => if sign then "-inf" else "inf"
  | S754_nan => "nan"
  | S754_finite sign mantissa exponent =>
      format_2f (exact_value sign mantissa exponent)
  end%string.

Definition calc_social_insurance_money (low high rate : float) (income : Z)
  : float :=
  if PrimFloat.ltb (of_int income) low then PrimFloat.mul low rate
  else if PrimFloat.ltb high (of_int income) then PrimFloat.mul high rate
  else PrimFloat.mul (of_int income) rate.

Fixpoint lookup (table : list item) (taxable_part : float) : option item :=
  match table with
  | [] => None
  | bracket :: rest =>
      if PrimFloat.ltb (start_point bracket) taxable_part then Some bracket
      else lookup rest taxable_part
  end.

Definition calc_income_tax_and_remain (low high rate : float) (income : Z)
  : string * string :=
  let social_insurance_money :=
    calc_social_insurance_money low high rate income in
  let real_income := PrimFloat.sub (of_int income) social_insurance_money in
  let taxable_part := PrimFloat.sub real_income INCOME_TAX_START_POINT in
  match lookup INCOME_TAX_QUICK_LOOKUP_TABLE taxable_part with
  | Some bracket =>
      let tax :=
        PrimFloat.sub (PrimFloat.mul taxable_part (tax_rate bracket))
                      (quick_subtractor bracket) in
      (format_double tax, format_double (PrimFloat.sub real_income tax))
  | None => ("0.00"%string, format_double real_income)
  end.

(** The same before the two amounts are formatted. *)
Definition income_tax_and_remain (low high rate : float) (income : Z)
  : float * float :=
  let social_insurance_money :=
    calc_social_insurance_money low high rate income in
  let real_income := PrimFloat.sub (of_int income) social_insurance_money in
  let taxable_part := PrimFloat.sub real_income INCOME_TAX_START_POINT in
  match lookup INCOME_TAX_QUICK_LOOKUP_TABLE taxable_part with
  | Some bracket =>
      let tax :=
        PrimFloat.sub (PrimFloat.mul taxable_part (tax_rate bracket))
                      (quick_subtractor bracket) in
      (tax, PrimFloat.sub real_income tax)
  | None => (0%float, real_income)
  end.

(** The three amounts of the row [calculate] returns. *)
Definition calculate (low high rate : float) (income : Z)
  : string * string * string :=
  (format_double (calc_social_insurance_money low high rate income),
   fst (calc_income_tax_and_remain low high rate income),
   snd (calc_income_tax_and_remain low high rate income)).

End Binary64.

(* ================================================================= *)
(** ** Configurations and inputs of the examples *)

(** Floor 3000, ceiling 20000, six rates that add up to 0.105. *)
Definition scenario_config : section :=
  [ ("JiShuL", Number 3000); ("JiShuH", Number 20000);
    ("YangLao", Number 0.08); ("YiLiao", Number 0.02);
    ("ShiYe", Number 0.005); ("GongShang", Number 0);
    ("ShengYu", Number 0); ("GongJiJin", Number 0) ]%string.





(* ================================================================= *)
(** ** Fields of a line *)

(** [','.join]. *)
Definition join_comma (fields : list string) : string :=
  String.concat "," fields.

Fixpoint has_comma (s : string) : bool :=
  match s with
  | EmptyString => false
  | String c rest => Ascii.eqb c "," || has_comma rest
  end.

(* ================================================================= *)
(** ** Records and steps of a run *)

(** The record a row was computed from: [calculate] copies both fields. *)
Definition record_of_row (r : row) : record :=
  (row_employee_id r, row_income r).

Section Runs.

Variable py_strip : string -> string.
Variable py_int : string -> option Z.
Variable config : section.

(** The records the source gets from its file; none when the reader ends
    the process. *)
Definition ingested (lines : list string) : list record :=
  match _read_users_data py_strip py_int lines with
  | Ret items => items
  | Exit => []
  | Raised => []
  end.

Definition source_records (src : source_state) : list record :=
  match src with
  | SourceReading lines => ingested lines
  | SourcePutting items => items
  | SourceDead => []
  end.

Definition calculator_records (c : calculator_state) : list record :=
  match c with
  | CalculatorHolding result => [record_of_row result]
  | CalculatorDead item => [item]
  | _ => []
  end.

(** The records of a state, from the file back to the source. *)
Definition records_downstream_first (s : pipeline) : list record :=
  map record_of_row (file s)
  ++ map record_of_row (export_queue s)
  ++ flat_map calculator_records (calculators s)
  ++ userdata_queue s
  ++ source_records (source s).

(** A row that [calculate] returns for the record it names. *)
Definition computed (r : row) : Prop :=
  exists now, calculate config now (row_employee_id r) (row_income r) = Ret r.

(** Steps a state can still take, at most: a record is put, calculated,
    exported and written; the source reads once; a calculator and the
    exporter time out once. *)
Definition source_weight (src : source_state) : nat :=
  match src with
  | SourceReading lines => 1 + 4 * List.length (ingested lines)
  | SourcePutting items => 4 * List.length items
  | SourceDead => 0
  end.

Definition calculator_weight (c : calculator_state) : nat :=
  match c with
  | CalculatorWaiting => 1
  | CalculatorHolding _ => 3
  | CalculatorReturned => 0
  | CalculatorDead _ => 0
  end.

Definition exporter_weight (e : exporter_state) : nat :=
  match e with
  | ExporterWaiting => 1
  | ExporterClosed => 0
  end.

Definition weight (s : pipeline) : nat :=
  source_weight (source s)
  + 3 * List.length (userdata_queue s)
  + list_sum (map calculator_weight (calculators s))
  + List.length (export_queue s)
  + exporter_weight (exporter s).

(** Runs with their number of steps. *)
Inductive reachable_in (s0 : pipeline) : nat -> pipeline -> Prop :=
| reach_in_start : reachable_in s0 0 s0
| reach_in_step n s s' :
    reachable_in s0 n s -> step py_strip py_int config s s' ->
    reachable_in s0 (S n) s'.

End Runs.

(* ================================================================= *)
(** ** The command line (class [Args], lines 31-78) *)

(** A [dict] with string keys and values: its items, each key once. *)
Definition dict : Type := list (string * string).

Fixpoint dict_get (d : dict) (key : string) : option string :=
  match d with
  | [] => None
  | (k, v) :: rest => if String.eqb k key then Some v else dict_get rest key
  end.

(** [d[key] = value]. *)
Fixpoint dict_set (d : dict) (key value : string) : dict :=
  match d with
  | [] => [(key, value)]
  | (k, v) :: rest =>
      if String.eqb k key then (k, value) :: rest
      else (k, v) :: dict_set rest key value
  end.

(** [dict(pairs)]: the pairs are set one after the other. *)
Definition py_dict (pairs : list (string * string)) : dict :=
  fold_left (fun d pair => dict_set d (fst pair) (snd pair)) pairs [].

(** [key in d]. *)
Definition dict_mem (d : dict) (key : string) : bool :=
  match dict_get d key with
  | Some _ => true
  | None => false
  end.

(** How [_options] ends: with the options, or with one of the two messages
    and [exit()]. *)
Inductive options_outcome : Type :=
| Options (options : dict)
| ExitUsage
| ExitParameterError.

(** [_options].  [getopt_result] is what
    [getopt(sys.argv[1:], 'hC:c:d:o:', ['help'])] gives: the list of the
    options with their values, or [None] for [GetoptError]. *)
Definition _options (getopt_result : option (list (string * string)))
  : options_outcome :=
  match getopt_result with
  | None => ExitParameterError
  | Some opts =>
      let options := py_dict opts in
      if (List.length options =? 1)%nat
         && (dict_mem options "-h" || dict_mem options "--help")
      then ExitUsage
      else Options options
  end.

(** [_value_after_option]: [None] is returned for a missing [-C] only. *)
Definition _value_after_option (options : dict) (opt : string)
  : outcome (option string) :=
  match dict_get options opt with
  | None => if negb (String.eqb opt "-C") then Exit else Ret None
  | Some value => Ret (Some value)
  end.

Definition city (options : dict) : outcome (option string) :=
  _value_after_option options "-C".

Definition config_path (options : dict) : outcome (option string) :=
  _value_after_option options "-c".

Definition userdata_path (options : dict) : outcome (option string) :=
  _value_after_option options "-d".

Definition export_path (options : dict) : outcome (option string) :=
  _value_after_option options "-o".

(** The value of the last occurrence of an option on the command line. *)
Definition last_value (opts : list (string * string)) (opt : string)
  : option string :=
  option_map snd (find (fun pair => String.eqb (fst pair) opt) (rev opts)).

(* ================================================================= *)
(** ** The section of the configuration ([Config._read_config], lines
       87-94) and the start of the program (lines 80, 125, 236-251) *)

Section ReadConfig.

(** [str.upper]. *)
Variable py_upper : string -> string.

(** The name of the section [_read_config] returns, [section_names] being
    [config.sections()] of the file read: the upper-cased city when a city
    is given, is not empty and names a section, [DEFAULT] otherwise. *)
Definition _read_config (section_names : list string) (city : option string)
  : string :=
  match city with
  | Some (String c rest) =>
      if existsb (String.eqb (py_upper (String c rest))) section_names
      then py_upper (String c rest)
      else "DEFAULT"
  | Some EmptyString => "DEFAULT"
  | None => "DEFAULT"
  end.

(** The source process at its start: [open(args.userdata_path)] is its
    first use of the command line.  [open_lines] gives the lines of a file,
    or [None] when [open] raises. *)
Definition source_start (options : dict)
  (open_lines : string -> option (list string)) : source_state :=
  match userdata_path options with
  | Ret (Some path) =>
      match open_lines path with
      | Some lines => SourceReading lines
      | None => SourceDead
      end
  | Ret None => SourceDead
  | Exit => SourceDead
  | Raised => SourceDead
  end.

(** How the main process gets to [start()]: a message and [exit()], an
    exception nobody catches, or the configuration file and section chosen,
    the export file opened for writing, and the three processes with their
    queues. *)
Inductive startup : Type :=
| StartupUsage
| StartupParameterError
| StartupRaised
| StartupDone (config_file section_name export_file : string) (s : pipeline).

(** Module level and [__main__] up to the three [start()], in the order of
    the text: [Args()]; [Config()], which evaluates [args.config_path],
    reads the file, then evaluates [args.city]; the exporter's
    [open(args.export_path, 'w')].
    - [sections_of] is [config.read] followed by [config.sections()]:
      the names of the sections of the file, none for a file that does not
      exist or cannot be opened (which [read] passes over), or [None] when
      [read] raises, as it does on a file it cannot parse
      ([MissingSectionHeaderError], [DuplicateOptionError], ...).
    - [open_for_writing] tells whether [open(path, 'w')] returns; it raises
      [OSError] otherwise.
    The paths are there whenever [config.read] and [open] are reached: only
    [args.city] can be [None]. *)
Definition main_startup (getopt_result : option (list (string * string)))
  (sections_of : string -> option (list string))
  (open_for_writing : string -> bool)
  (open_lines : string -> option (list string)) : startup :=
  match _options getopt_result with
  | ExitUsage => StartupUsage
  | ExitParameterError => StartupParameterError
  | Options options =>
      match config_path options with
      | Ret (Some path) =>
          match sections_of path with
          | Some section_names =>
              match city options with
              | Ret chosen_city =>
                  match export_path options with
                  | Ret (Some out) =>
                      if open_for_writing out then
                        StartupDone path
                          (_read_config section_names chosen_city) out
                          (Pipeline (source_start options open_lines) []
                                    [CalculatorWaiting] [] ExporterWaiting [])
                      else StartupRaised
                  | Ret None => StartupRaised
                  | Exit => StartupParameterError
                  | Raised => StartupRaised
                  end
              | Exit => StartupParameterError
              | Raised => StartupRaised
              end
          | None => StartupRaised
          end
      | Ret None => StartupRaised
      | Exit => StartupParameterError
      | Raised => StartupRaised
      end
  end.

End ReadConfig.

(** [str.upper] on ASCII text. *)
Definition upper_char (c : ascii) : ascii :=
  let n := nat_of_ascii c in
  if ((97 <=? n) && (n <=? 122))%nat then ascii_of_nat (n - 32) else c.

Fixpoint ascii_upper (s : string) : string :=
  match s with
  | EmptyString => EmptyString
  | String c rest => String (upper_char c) (ascii_upper rest)
  end.

(* ================================================================= *)
(** * Properties *)

(* ================================================================= *)
(** ** The outcome monad *)

Lemma bind_ret_inv {A B : Type} (m : outcome A) (k : A -> outcome B) (b : B) :
  bind m k = Ret b -> exists a, m = Ret a /\ k a = Ret b.
Proof.
  destruct m as [a| |]; simpl; intros H; try discriminate.
  exists a. split; [reflexivity | exact H].
Qed.

(* ================================================================= *)
(** ** The bracket lookup *)

Lemma descending_app_inv (table above below : list IncomeTaxQuickLookupItem)
  (item : IncomeTaxQuickLookupItem) :
  descending table ->
  table = above ++ item :: below ->
  Forall (fun b => start_point item < start_point b) above /\
  Forall (fun b => start_point b < start_point item) below.
Proof.
  intros Hd. revert above.
  induction Hd as [|a l Hs IH Hall]; intros above Heq.
  - destruct above; discriminate.
  - destruct above as [|a' above]; simpl in Heq; inversion Heq; subst.
    + split; [constructor | exact Hall].
    + destruct (IH above eq_refl) as [Ha Hb]. split; [|exact Hb].
      constructor; [|exact Ha].
      rewrite Forall_forall in Hall. apply Hall.
      apply in_or_app. right. left. reflexivity.
Qed.

Lemma descending_injective (table : list IncomeTaxQuickLookupItem)
  (a b : IncomeTaxQuickLookupItem) :
  descending table ->
  In a table -> In b table -> start_point a == start_point b -> a = b.
Proof.
  intros Hd.
  induction Hd as [|c l Hs IH Hall]; intros Ha Hb Heq.
  - destruct Ha.
  - rewrite Forall_forall in Hall.
    destruct Ha as [Ha|Ha], Hb as [Hb|Hb]; subst.
    + reflexivity.
    + specialize (Hall _ Hb). simpl in Hall. lra.
    + specialize (Hall _ Ha). simpl in Hall. lra.
    + apply IH; assumption.
Qed.

Section Lookup.

Variable table : list IncomeTaxQuickLookupItem.

(** What the loop finds, whatever the order of the table: the first item
    below the amount, every item before it being at or above the amount. *)
Lemma lookup_first (x : Q) :
  match lookup table x with
  | Some item =>
      exists above below,
        table = above ++ item :: below /\
        start_point item < x /\
        Forall (fun b => x <= start_point b) above
  | None => Forall (fun b => x <= start_point b) table
  end.
Proof.
  induction table as [|b rest IH]; simpl.
  - constructor.
  - destruct (Qlt_le_dec (start_point b) x) as [Hlt|Hle].
    + exists [], rest. repeat split; [exact Hlt | constructor].
    + destruct (lookup rest x) as [item|].
      * destruct IH as [above [below [Heq [Hlt Hall]]]].
        exists (b :: above), below. rewrite Heq. repeat split; auto.
      * constructor; assumption.
Qed.

Hypothesis table_descends : descending table.

Lemma lookup_greatest_below (x : Q) (item : IncomeTaxQuickLookupItem) :
  lookup table x = Some item -> greatest_below table x item.
Proof.
  intros Hl. pose proof (lookup_first x) as H. rewrite Hl in H.
  destruct H as [above [below [Heq [Hlt Hall]]]].
  destruct (descending_app_inv table above below item table_descends Heq)
    as [_ Hbelow].
  rewrite Forall_forall in Hall, Hbelow.
  split; [|split].
  - rewrite Heq. apply in_or_app. right. left. reflexivity.
  - exact Hlt.
  - intros other Hin Hother. rewrite Heq in Hin.
    apply in_app_or in Hin. destruct Hin as [Hin|[Hin|Hin]].
    + specialize (Hall _ Hin). simpl in Hall. lra.
    + subst. lra.
    + specialize (Hbelow _ Hin). simpl in Hbelow. lra.
Qed.

Lemma greatest_below_unique (x : Q) (a b : IncomeTaxQuickLookupItem) :
  greatest_below table x a -> greatest_below table x b -> a = b.
Proof.
  intros [Ha [Hax Hamax]] [Hb [Hbx Hbmax]].
  apply (descending_injective table); try assumption.
  specialize (Hamax b Hb Hbx). specialize (Hbmax a Ha Hax). lra.
Qed.

Lemma lookup_some_of_below (x : Q) (b : IncomeTaxQuickLookupItem) :
  In b table -> start_point b < x -> exists item, lookup table x = Some item.
Proof.
  intros Hin Hlt. pose proof (lookup_first x) as H.
  destruct (lookup table x) as [item|]; [eauto|].
  rewrite Forall_forall in H. specialize (H _ Hin). simpl in H. lra.
Qed.

(** At a boundary the loop passes the bracket that starts there and stops
    at the next one. *)
Lemma lookup_at_boundary (above below : list IncomeTaxQuickLookupItem)
  (upper lower : IncomeTaxQuickLookupItem) :
  table = above ++ upper :: lower :: below ->
  lookup table (start_point upper) = Some lower.
Proof.
  intros Heq.
  destruct (descending_app_inv table above (lower :: below) upper
              table_descends Heq) as [Ha Hb].
  inversion Hb as [|? ? Hlower _]; subst.
  clear - Ha Hlower. induction Ha as [|a above Hlt _ IH]; simpl.
  - destruct (Qlt_le_dec (start_point upper) (start_point upper)); [lra|].
    destruct (Qlt_le_dec (start_point lower) (start_point upper));
      [reflexivity|lra].
  - destruct (Qlt_le_dec (start_point a) (start_point upper)); [lra|exact IH].
Qed.

End Lookup.

Lemma table_descending : descending INCOME_TAX_QUICK_LOOKUP_TABLE.
Proof.
  unfold descending, INCOME_TAX_QUICK_LOOKUP_TABLE.
  repeat (constructor; simpl; try lra).
Qed.

Lemma lookup_positive (x : Q) :
  0 < x -> exists item, lookup INCOME_TAX_QUICK_LOOKUP_TABLE x = Some item.
Proof.
  intros Hx. apply (lookup_some_of_below _ x (Item 0 0.03 0)).
  - simpl. tauto.
  - exact Hx.
Qed.

Lemma lookup_nonpositive (x : Q) :
  x <= 0 -> lookup INCOME_TAX_QUICK_LOOKUP_TABLE x = None.
Proof.
  intros Hx. simpl.
  repeat match goal with
         | |- context [Qlt_le_dec ?a x] =>
             destruct (Qlt_le_dec a x); [simpl in *; lra|]
         end.
  reflexivity.
Qed.

Lemma lookup_comp (table : list IncomeTaxQuickLookupItem) (x y : Q) :
  x == y -> lookup table x = lookup table y.
Proof.
  intros Hxy. induction table as [|b rest IH]; simpl; [reflexivity|].
  destruct (Qlt_le_dec (start_point b) x), (Qlt_le_dec (start_point b) y);
    try reflexivity; try exact IH; lra.
Qed.

(** C2. For every taxable amount above zero the loop, which goes through a
    table written from the highest lower bound down, stops at the one
    bracket whose lower bound is the greatest strictly below the amount; an
    amount that is exactly the lower bound of a bracket gets the bracket
    under it. *)
Theorem lookup_selects_greatest_lower_bound (taxable_amount : Q) :
  0 < taxable_amount ->
  descending INCOME_TAX_QUICK_LOOKUP_TABLE /\
  (exists item,
      lookup INCOME_TAX_QUICK_LOOKUP_TABLE taxable_amount = Some item /\
      greatest_below INCOME_TAX_QUICK_LOOKUP_TABLE taxable_amount item /\
      forall other,
        greatest_below INCOME_TAX_QUICK_LOOKUP_TABLE taxable_amount other ->
        other = item) /\
  (forall above upper lower below,
      INCOME_TAX_QUICK_LOOKUP_TABLE = above ++ upper :: lower :: below ->
      taxable_amount == start_point upper ->
      lookup INCOME_TAX_QUICK_LOOKUP_TABLE taxable_amount = Some lower /\
      lower <> upper).
Proof.
  intros Hpos. split; [exact table_descending|]. split.
  - destruct (lookup_positive taxable_amount Hpos) as [item Hitem].
    exists item. split; [exact Hitem|].
    pose proof (lookup_greatest_below _ table_descending _ _ Hitem) as Hg.
    split; [exact Hg|].
    intros other Hother.
    exact (greatest_below_unique _ table_descending _ _ _ Hother Hg).
  - intros above upper lower below Heq Hx. split.
    + rewrite (lookup_comp _ _ _ Hx).
      exact (lookup_at_boundary _ table_descending _ _ _ _ Heq).
    + intros ->.
      destruct (descending_app_inv _ _ _ _ table_descending Heq) as [_ Hb].
      inversion Hb; subst. lra.
Qed.

Lemma lookup_selects_greatest_lower_bound_witness :
  lookup INCOME_TAX_QUICK_LOOKUP_TABLE 1500 = Some (Item 0 0.03 0) /\
  lookup INCOME_TAX_QUICK_LOOKUP_TABLE 5450 = Some (Item 4500 0.20 555).
Proof.
  assert (H1500 : 0 < 1500) by reflexivity.
  assert (H5450 : 0 < 5450) by reflexivity.
  split.
  - destruct (lookup_selects_greatest_lower_bound 1500 H1500) as [_ [_ Hb]].
    apply (Hb [Item 80000 0.45 13505; Item 55000 0.35 5505;
               Item 35000 0.30 2755; Item 9000 0.25 1005; Item 4500 0.20 555]
              (Item 1500 0.1 105) (Item 0 0.03 0) []); reflexivity.
  - destruct (lookup_selects_greatest_lower_bound 5450 H5450)
      as [_ [[item [Hl _]] _]].
    reflexivity.
Defined.

(* ================================================================= *)
(** ** The quick subtractors *)

(** The bracket the loop stops at, by the interval the amount is in. *)
Lemma lookup_by_interval (x : Q) :
  (x <= 0 /\ lookup INCOME_TAX_QUICK_LOOKUP_TABLE x = None) \/
  (0 < x <= 1500 /\
   lookup INCOME_TAX_QUICK_LOOKUP_TABLE x = Some (Item 0 0.03 0)) \/
  (1500 < x <= 4500 /\
   lookup INCOME_TAX_QUICK_LOOKUP_TABLE x = Some (Item 1500 0.1 105)) \/
  (4500 < x <= 9000 /\
   lookup INCOME_TAX_QUICK_LOOKUP_TABLE x = Some (Item 4500 0.20 555)) \/
  (9000 < x <= 35000 /\
   lookup INCOME_TAX_QUICK_LOOKUP_TABLE x = Some (Item 9000 0.25 1005)) \/
  (35000 < x <= 55000 /\
   lookup INCOME_TAX_QUICK_LOOKUP_TABLE x = Some (Item 35000 0.30 2755)) \/
  (55000 < x <= 80000 /\
   lookup INCOME_TAX_QUICK_LOOKUP_TABLE x = Some (Item 55000 0.35 5505)) \/
  (80000 < x /\
   lookup INCOME_TAX_QUICK_LOOKUP_TABLE x = Some (Item 80000 0.45 13505)).
Proof.
  simpl.
  repeat match goal with
         | |- context [Qlt_le_dec ?a x] =>
             destruct (Qlt_le_dec a x); simpl in *
         end;
    try (left; split; [lra | reflexivity]);
    repeat (right; try (left; split; [lra | reflexivity]));
    try (split; [lra | reflexivity]).
Qed.

Ltac split_min_max :=
  repeat match goal with
         | |- context [Qmin ?a ?b] =>
             let H := fresh "Hmin" in
             let m := fresh "m" in
             destruct (Q.min_spec a b) as [[? H]|[? H]];
             revert H; generalize (Qmin a b); intros m H; try lra
         | |- context [Qmax ?a ?b] =>
             let H := fresh "Hmax" in
             let m := fresh "m" in
             destruct (Q.max_spec a b) as [[? H]|[? H]];
             revert H; generalize (Qmax a b); intros m H; try lra
         end.



(* ================================================================= *)
(** ** Social insurance *)

Lemma clamp_below (x lo hi : Q) : lo <= hi -> x < lo -> clamp x lo hi == lo.
Proof. intros. unfold clamp. split_min_max; lra. Qed.

Lemma clamp_above (x lo hi : Q) : lo <= hi -> hi < x -> clamp x lo hi == hi.
Proof. intros. unfold clamp. split_min_max; lra. Qed.

Lemma clamp_within (x lo hi : Q) : lo <= x -> x <= hi -> clamp x lo hi == x.
Proof. intros. unfold clamp. split_min_max; lra. Qed.

(** The calculator on a configuration that resolves. *)
Lemma calc_social_insurance_money_resolved (config : section)
  (lo hi r : Q) (income : Z) :
  resolves config lo hi r ->
  calc_social_insurance_money config income = Ret (insurance_of lo hi r income).
Proof.
  intros [Hlo [Hhi Hr]]. unfold calc_social_insurance_money, insurance_of.
  rewrite Hlo, Hhi, Hr. simpl.
  destruct (Qlt_le_dec (inject_Z income) lo); [reflexivity|].
  destruct (Qlt_le_dec hi (inject_Z income)); reflexivity.
Qed.

(** C3. For every gross income of zero or more, and a floor, a ceiling and a
    combined rate with 0 <= floor <= ceiling and 0 <= rate, the insurance
    withheld is the income clamped between floor and ceiling, times the rate:
    floor times rate under the floor, ceiling times rate over the ceiling,
    income times rate in between. *)
Theorem insurance_is_clamped_base_times_rate (config : section)
  (base_floor base_ceiling combined_rate : Q) (gross_income : Z) :
  resolves config base_floor base_ceiling combined_rate ->
  0 <= base_floor -> base_floor <= base_ceiling -> 0 <= combined_rate ->
  (0 <= gross_income)%Z ->
  (inject_Z gross_income < base_floor ->
   calc_social_insurance_money config gross_income
   = Ret (base_floor * combined_rate)) /\
  (base_ceiling < inject_Z gross_income ->
   calc_social_insurance_money config gross_income
   = Ret (base_ceiling * combined_rate)) /\
  (base_floor <= inject_Z gross_income <= base_ceiling ->
   calc_social_insurance_money config gross_income
   = Ret (inject_Z gross_income * combined_rate)) /\
  exists withheld,
    calc_social_insurance_money config gross_income = Ret withheld /\
    withheld
    == clamp (inject_Z gross_income) base_floor base_ceiling * combined_rate.
Proof.
  intros Hres Hfloor Hle Hrate Hincome.
  rewrite (calc_social_insurance_money_resolved _ _ _ _ _ Hres).
  unfold insurance_of.
  destruct (Qlt_le_dec (inject_Z gross_income) base_floor) as [Hlow|Hlow];
    [|destruct (Qlt_le_dec base_ceiling (inject_Z gross_income))
        as [Hhigh|Hhigh]].
  - repeat split; try (intros; exfalso; lra).
    eexists. split; [reflexivity|].
    rewrite (clamp_below _ _ _ Hle Hlow). reflexivity.
  - repeat split; try (intros; exfalso; lra).
    eexists. split; [reflexivity|].
    rewrite (clamp_above _ _ _ Hle Hhigh). reflexivity.
  - repeat split; try (intros; exfalso; lra).
    eexists. split; [reflexivity|].
    rewrite (clamp_within _ _ _ Hlow Hhigh). reflexivity.
Qed.

Lemma scenario_config_resolves :
  resolves scenario_config 3000 20000 (py_sum [0.08; 0.02; 0.005; 0; 0; 0]).
Proof. repeat split. Qed.

Lemma insurance_is_clamped_base_times_rate_witness :
  exists withheld,
    calc_social_insurance_money scenario_config 10000 = Ret withheld /\
    withheld
    == clamp 10000 3000 20000 * py_sum [0.08; 0.02; 0.005; 0; 0; 0].
Proof.
  apply (insurance_is_clamped_base_times_rate scenario_config 3000 20000
           (py_sum [0.08; 0.02; 0.005; 0; 0; 0]) 10000).
  - exact scenario_config_resolves.
  - vm_compute; discriminate.
  - vm_compute; discriminate.
  - vm_compute; discriminate.
  - lia.
Defined.

(* ================================================================= *)
(** ** Tax and remainder *)

Lemma float_of_int_in_range (n : Z) :
  int_too_large n = false -> float_of_int n = Ret (inject_Z n).
Proof. intros H. unfold float_of_int. rewrite H. reflexivity. Qed.


Lemma income_tax_and_remain_resolved (config : section) (income : Z)
  (withheld : Q) :
  calc_social_insurance_money config income = Ret withheld ->
  int_too_large income = false ->
  income_tax_and_remain config income
  = Ret (tax_of (real_income_of income withheld),
         real_income_of income withheld
         - tax_of (real_income_of income withheld)) \/
  (tax_of (real_income_of income withheld) = 0 /\
   income_tax_and_remain config income
   = Ret (0, real_income_of income withheld)).
Proof.
  intros Hw Hrange.
  unfold income_tax_and_remain, tax_of, taxable_part_of, real_income_of.
  rewrite Hw, (float_of_int_in_range _ Hrange). cbn [bind].
  destruct (lookup INCOME_TAX_QUICK_LOOKUP_TABLE
              (inject_Z income - withheld - INCOME_TAX_START_POINT));
    [left; reflexivity | right; split; reflexivity].
Qed.

(** What [calc_income_tax_and_remain] returns is the pair of numbers,
    formatted. *)
Lemma calc_income_tax_and_remain_formats (config : section) (income : Z) :
  calc_income_tax_and_remain config income
  = (amounts <- income_tax_and_remain config income ;;
     Ret (format_2f (fst amounts), format_2f (snd amounts))).
Proof.
  unfold calc_income_tax_and_remain, income_tax_and_remain.
  destruct (calc_social_insurance_money config income) as [w| |];
    try reflexivity.
  destruct (float_of_int income) as [x| |]; try reflexivity.
  cbn [bind].
  destruct (lookup INCOME_TAX_QUICK_LOOKUP_TABLE
              (x - w - INCOME_TAX_START_POINT)); reflexivity.
Qed.

(** The branch after the loop: no item of the table is below the amount. *)
Lemma no_match_branch (config : section) (now employee_id : string)
  (income : Z) (withheld : Q) :
  calc_social_insurance_money config income = Ret withheld ->
  int_too_large income = false ->
  lookup INCOME_TAX_QUICK_LOOKUP_TABLE (taxable_part_of income withheld)
  = None ->
  income_tax_and_remain config income
  = Ret (0, real_income_of income withheld) /\
  calc_income_tax_and_remain config income
  = Ret ("0.00"%string, format_2f (real_income_of income withheld)) /\
  calculate config now employee_id income
  = Ret (Row employee_id income (format_2f withheld) "0.00"
             (format_2f (real_income_of income withheld)) now).
Proof.
  intros Hw Hrange Hnone. unfold taxable_part_of, real_income_of in *.
  apply float_of_int_in_range in Hrange.
  assert (Hcalc : calc_income_tax_and_remain config income
                  = Ret ("0.00"%string,
                         format_2f (inject_Z income - withheld))).
  { unfold calc_income_tax_and_remain. rewrite Hw, Hrange. cbn [bind].
    rewrite Hnone. reflexivity. }
  repeat split.
  - unfold income_tax_and_remain. rewrite Hw, Hrange. cbn [bind].
    rewrite Hnone. reflexivity.
  - exact Hcalc.
  - unfold calculate. rewrite Hw, Hcalc. reflexivity.
Qed.

(** C4. Whenever the taxable amount, real income minus the threshold 3500,
    is zero or less, no bracket matches, the tax returned is 0.00 and the
    remainder is the real income, gross income minus insurance withheld.
    There is a real income, and so a taxable amount, for the incomes that
    line 181 can convert to a float. *)
Theorem no_tax_when_taxable_amount_not_positive (config : section)
  (now employee_id : string) (income : Z) (withheld : Q) :
  calc_social_insurance_money config income = Ret withheld ->
  int_too_large income = false ->
  real_income_of income withheld - 3500 <= 0 ->
  taxable_part_of income withheld = real_income_of income withheld - 3500 /\
  lookup INCOME_TAX_QUICK_LOOKUP_TABLE (taxable_part_of income withheld)
  = None /\
  income_tax_and_remain config income
  = Ret (0, real_income_of income withheld) /\
  calc_income_tax_and_remain config income
  = Ret ("0.00"%string, format_2f (real_income_of income withheld)) /\
  calculate config now employee_id income
  = Ret (Row employee_id income (format_2f withheld) "0.00"
             (format_2f (real_income_of income withheld)) now).
Proof.
  intros Hw Hrange Hle.
  assert (Hnone : lookup INCOME_TAX_QUICK_LOOKUP_TABLE
                    (taxable_part_of income withheld) = None).
  { apply lookup_nonpositive.
    unfold taxable_part_of, INCOME_TAX_START_POINT. exact Hle. }
  split; [reflexivity|]. split; [exact Hnone|].
  exact (no_match_branch config now employee_id income withheld Hw Hrange
           Hnone).
Qed.

Lemma no_tax_when_taxable_amount_not_positive_witness :
  calc_income_tax_and_remain scenario_config 2000
  = Ret ("0.00"%string, "1685.00"%string).
Proof.
  assert (Hw : calc_social_insurance_money scenario_config 2000
               = Ret (3000 * py_sum [0.08; 0.02; 0.005; 0; 0; 0]))
    by reflexivity.
  assert (Hle : real_income_of 2000 (3000 * py_sum [0.08; 0.02; 0.005; 0; 0; 0])
                - 3500 <= 0)
    by (vm_compute; discriminate).
  destruct (no_tax_when_taxable_amount_not_positive scenario_config
              "" "" 2000 _ Hw eq_refl Hle) as [_ [_ [_ [H _]]]].
  rewrite H. reflexivity.
Defined.

(* ================================================================= *)
(** ** Formatting and equal rationals *)

(** Two fractions of the same value are formatted alike: what the calculator
    prints depends on the values of the configuration only, not on how the
    six rates add up to the combined rate. *)
Lemma round_half_even_comp (x y : Q) :
  x == y -> round_half_even x = round_half_even y.
Proof.
  intros Hxy. unfold round_half_even.
  rewrite (Qfloor_comp _ _ Hxy).
  assert (Hc : (x - inject_Z (Qfloor y) ?= 1 # 2)
               = (y - inject_Z (Qfloor y) ?= 1 # 2)).
  { apply Qcompare_comp; [rewrite Hxy|]; reflexivity. }
  rewrite Hc. reflexivity.
Qed.

Lemma format_2f_comp (x y : Q) : x == y -> format_2f x = format_2f y.
Proof.
  intros Hxy. unfold format_2f.
  assert (Hr : round_half_even (x * 100) = round_half_even (y * 100)).
  { apply round_half_even_comp. rewrite Hxy. reflexivity. }
  rewrite Hr.
  destruct (Qlt_le_dec x 0), (Qlt_le_dec y 0); try reflexivity; lra.
Qed.

Lemma insurance_of_comp (lo hi r lo' hi' r' : Q) (income : Z) :
  lo == lo' -> hi == hi' -> r == r' ->
  insurance_of lo hi r income == insurance_of lo' hi' r' income.
Proof.
  intros Hlo Hhi Hr. unfold insurance_of.
  destruct (Qlt_le_dec (inject_Z income) lo),
           (Qlt_le_dec (inject_Z income) lo');
    try lra; [rewrite Hlo, Hr; reflexivity|].
  destruct (Qlt_le_dec hi (inject_Z income)),
           (Qlt_le_dec hi' (inject_Z income));
    try lra; rewrite ?Hhi, Hr; reflexivity.
Qed.

Lemma tax_of_comp (x y : Q) : x == y -> tax_of x == tax_of y.
Proof.
  intros Hxy. unfold tax_of.
  assert (Ht : x - INCOME_TAX_START_POINT == y - INCOME_TAX_START_POINT)
    by (rewrite Hxy; reflexivity).
  rewrite (lookup_comp _ _ _ Ht).
  destruct (lookup INCOME_TAX_QUICK_LOOKUP_TABLE (y - INCOME_TAX_START_POINT));
    [|reflexivity].
  unfold quick_tax. rewrite Ht. reflexivity.
Qed.

(** The row of a configuration that resolves, in closed form. *)
Lemma calculate_resolved (config : section) (lo hi r : Q)
  (now employee_id : string) (income : Z) :
  resolves config lo hi r ->
  int_too_large income = false ->
  calculate config now employee_id income
  = Ret (row_of lo hi r now employee_id income).
Proof.
  intros Hres Hrange. unfold row_of, real_income_of, calculate,
    calc_income_tax_and_remain.
  rewrite (calc_social_insurance_money_resolved _ _ _ _ _ Hres),
    (float_of_int_in_range _ Hrange). cbn [bind].
  unfold tax_of.
  destruct (lookup INCOME_TAX_QUICK_LOOKUP_TABLE
              (inject_Z income - insurance_of lo hi r income
               - INCOME_TAX_START_POINT)); cbn [bind fst snd].
  - reflexivity.
  - f_equal. f_equal. apply format_2f_comp. lra.
Qed.

(** The amounts of a row depend on the values of floor, ceiling and rate. *)
Lemma calculate_by_value (config : section) (lo hi r lo' hi' r' : Q)
  (now employee_id : string) (income : Z) :
  resolves config lo hi r -> lo == lo' -> hi == hi' -> r == r' ->
  int_too_large income = false ->
  calculate config now employee_id income
  = Ret (row_of lo' hi' r' now employee_id income).
Proof.
  intros Hres Hlo Hhi Hr Hrange.
  rewrite (calculate_resolved _ _ _ _ _ _ _ Hres Hrange).
  unfold row_of, real_income_of.
  pose proof (insurance_of_comp _ _ _ _ _ _ income Hlo Hhi Hr) as Hi.
  assert (Hreal : inject_Z income - insurance_of lo hi r income
                  == inject_Z income - insurance_of lo' hi' r' income)
    by (rewrite Hi; reflexivity).
  pose proof (tax_of_comp _ _ Hreal) as Ht.
  f_equal. f_equal; apply format_2f_comp.
  - exact Hi.
  - exact Ht.
  - lra.
Qed.

(** C5. With floor 3000, ceiling 20000, combined rate 0.105, threshold 3500
    and the default table: gross income 10000 gives insurance 1050.00, tax
    535.00, net pay 8415.00; 2000 gives 315.00, 0.00, 1685.00; 50000 gives
    2100.00, 10565.00, 37335.00.  The same strings come out of the
    arithmetic on doubles. *)
Theorem concrete_scenarios (config : section) (lo hi r : Q)
  (now employee_id : string) :
  resolves config lo hi r -> lo == 3000 -> hi == 20000 -> r == 0.105 ->
  INCOME_TAX_START_POINT = 3500 /\
  calculate config now employee_id 10000
  = Ret (Row employee_id 10000 "1050.00" "535.00" "8415.00" now) /\
  calculate config now employee_id 2000
  = Ret (Row employee_id 2000 "315.00" "0.00" "1685.00" now) /\
  calculate config now employee_id 50000
  = Ret (Row employee_id 50000 "2100.00" "10565.00" "37335.00" now) /\
  Binary64.calculate 3000 20000 0.105 10000
  = ("1050.00", "535.00", "8415.00")%string /\
  Binary64.calculate 3000 20000 0.105 2000
  = ("315.00", "0.00", "1685.00")%string /\
  Binary64.calculate 3000 20000 0.105 50000
  = ("2100.00", "10565.00", "37335.00")%string.
Proof.
  intros Hres Hlo Hhi Hr.
  assert (Hrow : forall income,
             int_too_large income = false ->
             calculate config now employee_id income
             = Ret (row_of 3000 20000 0.105 now employee_id income))
    by (intros income;
        exact (calculate_by_value _ _ _ _ _ _ _ _ _ _ Hres Hlo Hhi Hr)).
  split; [reflexivity|].
  split; [rewrite (Hrow 10000%Z eq_refl); vm_compute; reflexivity|].
  split; [rewrite (Hrow 2000%Z eq_refl); vm_compute; reflexivity|].
  split; [rewrite (Hrow 50000%Z eq_refl); vm_compute; reflexivity|].
  repeat split; vm_compute; reflexivity.
Qed.

Lemma concrete_scenarios_witness :
  calculate scenario_config "2026-01-01 09:00:00" "101" 10000
  = Ret (Row "101" 10000 "1050.00" "535.00" "8415.00" "2026-01-01 09:00:00").
Proof.
  apply (concrete_scenarios scenario_config 3000 20000
           (py_sum [0.08; 0.02; 0.005; 0; 0; 0])
           "2026-01-01 09:00:00" "101").
  - exact scenario_config_resolves.
  - reflexivity.
  - reflexivity.
  - reflexivity.
Defined.

(* ================================================================= *)
(** ** Net pay as a function of gross income *)

(** The real income does not go down when the gross income goes up. *)
Lemma real_income_monotone (lo hi r : Q) (a b : Z) :
  0 <= r -> r < 1 -> lo <= hi -> (a <= b)%Z ->
  inject_Z a - insurance_of lo hi r a <= inject_Z b - insurance_of lo hi r b.
Proof.
  intros Hr0 Hr1 Hle Hab. rewrite Zle_Qle in Hab.
  unfold insurance_of. revert Hab.
  generalize (inject_Z a) (inject_Z b). intros x y Hxy.
  assert (Hshrink : forall d, 0 <= d -> d * r <= d).
  { intros d Hd.
    assert (0 <= d * (1 - r)) by (apply Qmult_le_0_compat; lra). lra. }
  pose proof (Hshrink (hi - lo)) as H1.
  pose proof (Hshrink (y - lo)) as H2.
  pose proof (Hshrink (hi - x)) as H3.
  pose proof (Hshrink (y - x)) as H4.
  destruct (Qlt_le_dec x lo), (Qlt_le_dec y lo),
           (Qlt_le_dec hi x), (Qlt_le_dec hi y); cbv iota; lra.
Qed.

(** What is left of a real income after tax does not go down when the real
    income goes up: every marginal rate is below 1 and the quick formulas of
    two neighbouring brackets agree where they meet. *)
Lemma remain_monotone (x y : Q) : x <= y -> x - tax_of x <= y - tax_of y.
Proof.
  intros Hxy. unfold tax_of, INCOME_TAX_START_POINT.
  destruct (lookup_by_interval (x - 3500))
    as [[Hx Hl]|[[Hx Hl]|[[Hx Hl]|[[Hx Hl]|[[Hx Hl]|[[Hx Hl]|[[Hx Hl]|
        [Hx Hl]]]]]]]];
    rewrite Hl; clear Hl;
    destruct (lookup_by_interval (y - 3500))
      as [[Hy Hl]|[[Hy Hl]|[[Hy Hl]|[[Hy Hl]|[[Hy Hl]|[[Hy Hl]|[[Hy Hl]|
          [Hy Hl]]]]]]]];
    rewrite Hl; clear Hl; unfold quick_tax; simpl; lra.
Qed.

Lemma quick_formulas_meet (upper : IncomeTaxQuickLookupItem) :
  In upper INCOME_TAX_QUICK_LOOKUP_TABLE -> 0 < start_point upper ->
  exists lower,
    lookup INCOME_TAX_QUICK_LOOKUP_TABLE (start_point upper) = Some lower /\
    quick_tax lower (start_point upper) == quick_tax upper (start_point upper).
Proof.
  intros Hin Hpos. simpl in Hin.
  destruct Hin as [H|[H|[H|[H|[H|[H|[H|[]]]]]]]]; subst upper;
    try (eexists; split; [reflexivity | reflexivity]).
  simpl in Hpos. lra.
Qed.

(** C9, in exact arithmetic.  With 0 <= rate < 1, 0 <= floor <= ceiling and
    the default table, for two incomes that line 181 can convert, the net
    pay before formatting, computed without rounding, does not go down when
    the gross income goes up, and the tax has no jump at a bracket boundary:
    the quick formulas of the brackets on both sides give the same tax
    there.  On doubles the products are rounded and the net pay can go
    down, as the example after the theorem shows. *)
Theorem net_pay_monotone (config : section) (lo hi r : Q) (a b : Z) :
  resolves config lo hi r ->
  0 <= r -> r < 1 -> 0 <= lo -> lo <= hi ->
  (a <= b)%Z ->
  int_too_large a = false -> int_too_large b = false ->
  (exists tax_a net_a tax_b net_b,
      income_tax_and_remain config a = Ret (tax_a, net_a) /\
      income_tax_and_remain config b = Ret (tax_b, net_b) /\
      calc_income_tax_and_remain config a
      = Ret (format_2f tax_a, format_2f net_a) /\
      calc_income_tax_and_remain config b
      = Ret (format_2f tax_b, format_2f net_b) /\
      net_a <= net_b) /\
  (forall upper,
      In upper INCOME_TAX_QUICK_LOOKUP_TABLE -> 0 < start_point upper ->
      exists lower,
        lookup INCOME_TAX_QUICK_LOOKUP_TABLE (start_point upper) = Some lower /\
        quick_tax lower (start_point upper)
        == quick_tax upper (start_point upper)).
Proof.
  intros Hres Hr0 Hr1 Hlo Hle Hab Hra Hrb. split; [|exact quick_formulas_meet].
  pose proof (calc_social_insurance_money_resolved _ _ _ _ a Hres) as Ha.
  pose proof (calc_social_insurance_money_resolved _ _ _ _ b Hres) as Hb.
  pose proof (real_income_monotone lo hi r a b Hr0 Hr1 Hle Hab) as Hreal.
  pose proof (remain_monotone _ _ Hreal) as Hnet.
  pose proof (calc_income_tax_and_remain_formats config a) as Hfa.
  pose proof (calc_income_tax_and_remain_formats config b) as Hfb.
  destruct (income_tax_and_remain_resolved _ _ _ Ha Hra) as [Ea|[Na Ea]];
    destruct (income_tax_and_remain_resolved _ _ _ Hb Hrb) as [Eb|[Nb Eb]];
    rewrite Ea in Hfa; rewrite Eb in Hfb; cbn [bind fst snd] in Hfa, Hfb;
    do 4 eexists;
    (split; [exact Ea|]); (split; [exact Eb|]);
    (split; [exact Hfa|]); (split; [exact Hfb|]);
    unfold real_income_of in *;
    try rewrite Na in Hnet; try rewrite Nb in Hnet; lra.
Qed.

Lemma net_pay_monotone_witness :
  exists tax_a net_a tax_b net_b,
    income_tax_and_remain scenario_config 12999 = Ret (tax_a, net_a) /\
    income_tax_and_remain scenario_config 13000 = Ret (tax_b, net_b) /\
    calc_income_tax_and_remain scenario_config 12999
    = Ret (format_2f tax_a, format_2f net_a) /\
    calc_income_tax_and_remain scenario_config 13000
    = Ret (format_2f tax_b, format_2f net_b) /\
    net_a <= net_b.
Proof.
  apply (net_pay_monotone scenario_config 3000 20000
           (py_sum [0.08; 0.02; 0.005; 0; 0; 0]) 12999 13000).
  - exact scenario_config_resolves.
  - vm_compute; discriminate.
  - reflexivity.
  - vm_compute; discriminate.
  - vm_compute; discriminate.
  - lia.
  - reflexivity.
  - reflexivity.
Defined.

(** The same two amounts on doubles: rate 0.9999, floor 0, ceiling 1e18.
    One unit more of gross income, and the net pay computed is lower, before
    formatting and after. *)
Lemma rounding_lowers_net_pay :
  (PrimFloat.leb 0 0.9999 = true /\ PrimFloat.ltb 0.9999 1 = true /\
   PrimFloat.leb 0 0 = true /\ PrimFloat.leb 0 1e18 = true) /\
  (35187890877919 <= 35187890877920)%Z /\
  PrimFloat.ltb
    (snd (Binary64.income_tax_and_remain 0 1e18 0.9999 35187890877920))
    (snd (Binary64.income_tax_and_remain 0 1e18 0.9999 35187890877919))
  = true /\
  Binary64.calc_income_tax_and_remain 0 1e18 0.9999 35187890877919
  = ("1583440009.51", "1935349078.29")%string /\
  Binary64.calc_income_tax_and_remain 0 1e18 0.9999 35187890877920
  = ("1583440009.51", "1935349078.28")%string.
Proof.
  split; [repeat split|].
  split; [lia|].
  split; [vm_compute; reflexivity|].
  split; vm_compute; reflexivity.
Qed.

(* ================================================================= *)
(** ** Negative incomes *)






(* ================================================================= *)
(** ** The reader *)

Section Reader.

Variable py_strip : string -> string.
Variable py_int : string -> option Z.

Lemma read_line_fails (line : string) :
  parse_failure py_strip py_int line ->
  forall item, read_line py_strip py_int line <> Ret item.
Proof.
  unfold parse_failure, read_line.
  intros [Hlen|[employee_id [income_string [Hsplit Hint]]]] item.
  - destruct (split_comma (py_strip line)) as [|f1 [|f2 [|f3 fs]]];
      try discriminate.
    simpl in Hlen. congruence.
  - rewrite Hsplit, Hint. discriminate.
Qed.

(** One line the reader cannot take is enough: the list is never returned,
    whatever the lines before and after it. *)
Lemma read_users_data_fails (lines : list string) (line : string) :
  In line lines ->
  (forall item, read_line py_strip py_int line <> Ret item) ->
  forall items, _read_users_data py_strip py_int lines <> Ret items.
Proof.
  intros Hin Hbad. induction lines as [|l rest IH]; [destruct Hin|].
  intros items Hret. simpl in Hret.
  apply bind_ret_inv in Hret. destruct Hret as [item [Hitem Hrest]].
  apply bind_ret_inv in Hrest. destruct Hrest as [userdata [Hud _]].
  destruct Hin as [->|Hin].
  - exact (Hbad item Hitem).
  - exact (IH Hin userdata Hud).
Qed.

End Reader.

(* ================================================================= *)
(** ** The pipeline *)

Lemma calculate_employee_id (config : section) (now employee_id : string)
  (income : Z) (result : row) :
  calculate config now employee_id income = Ret result ->
  row_employee_id result = employee_id.
Proof.
  unfold calculate. intros H.
  apply bind_ret_inv in H. destruct H as [w [_ H]].
  apply bind_ret_inv in H. destruct H as [tr [_ H]].
  inversion H. reflexivity.
Qed.

Lemma forallb_middle {A : Type} (f : A -> bool) (l1 l2 : list A) (a : A) :
  forallb f (l1 ++ a :: l2) = forallb f l1 && f a && forallb f l2.
Proof.
  rewrite forallb_app. simpl. rewrite andb_assoc. reflexivity.
Qed.

Lemma forallb_false_middle {A : Type} (f : A -> bool) (l : list A) :
  forallb f l = false ->
  exists l1 a l2, l = l1 ++ a :: l2 /\ f a = false.
Proof.
  induction l as [|x l IH]; simpl; [discriminate|].
  destruct (f x) eqn:Hx; simpl.
  - intros H. destruct (IH H) as [l1 [a [l2 [-> Ha]]]].
    exists (x :: l1), a, l2. split; [reflexivity | exact Ha].
  - intros _. exists [], x, l. split; [reflexivity | exact Hx].
Qed.

Lemma flat_map_repeat_nil {A B : Type} (f : A -> list B) (a : A) (n : nat) :
  f a = [] -> flat_map f (repeat a n) = [].
Proof.
  intros Hf. induction n as [|n IH]; [reflexivity|].
  simpl. rewrite Hf, IH. reflexivity.
Qed.

(* ================================================================= *)
(** ** Configuration keys that cannot be read *)

Lemma get_config_cases (config : section) (key : string) :
  (exists v, section_get config key = Some (Number v) /\
             _get_config config key = Ret v) \/
  (key_exits config key /\ _get_config config key = Exit) \/
  (key_raises config key /\ _get_config config key = Raised).
Proof.
  unfold key_exits, key_raises, _get_config.
  destruct (section_get config key) as [[v| |]|]; eauto 6.
Qed.


Lemma get_config_number (config : section) (key : string) :
  key_is_number config key -> returns (_get_config config key).
Proof.
  intros [v H]. exists v. unfold _get_config. rewrite H. reflexivity.
Qed.

Lemma get_config_exits (config : section) (key : string) :
  key_exits config key -> _get_config config key = Exit.
Proof.
  unfold key_exits, _get_config. intros [H|H]; rewrite H; reflexivity.
Qed.

Lemma get_config_raises (config : section) (key : string) :
  key_raises config key -> _get_config config key = Raised.
Proof.
  unfold key_raises, _get_config. intros H. rewrite H. reflexivity.
Qed.

Lemma get_config_unusable (config : section) (key : string) :
  key_unusable config key -> fails (_get_config config key).
Proof.
  intros [H|H]; [left; apply get_config_exits | right; apply get_config_raises];
    exact H.
Qed.




(** The combined rate is the sum of the list of the six values. *)
Lemma total_rate_of_get_configs (config : section) :
  social_insurance_total_rate config
  = (rates <- get_configs config rate_keys ;; Ret (py_sum rates)).
Proof.
  unfold social_insurance_total_rate, rate_keys, get_configs.
  repeat match goal with
         | |- context [_get_config config ?k] =>
             destruct (_get_config config k); cbn [bind]; try reflexivity
         end.
Qed.

(** The keys before the first bad one are read, the bad one decides. *)
Lemma get_configs_stops_at (config : section) (before after : list string)
  (key : string) (failure : outcome Q) :
  (forall earlier, In earlier before -> key_is_number config earlier) ->
  _get_config config key = failure -> fails failure ->
  fails (get_configs config (before ++ key :: after)) /\
  (failure = Exit -> get_configs config (before ++ key :: after) = Exit) /\
  (failure = Raised -> get_configs config (before ++ key :: after) = Raised).
Proof.
  intros Hbefore Hkey Hfail.
  induction before as [|k before IH]; simpl.
  - rewrite Hkey. destruct Hfail as [-> | ->]; cbn [bind]; unfold fails;
      repeat split; auto; discriminate.
  - destruct (get_config_number config k) as [v Hv];
      [apply Hbefore; left; reflexivity|].
    rewrite Hv. cbn [bind].
    destruct IH as [IH [IHe IHr]];
      [intros earlier Hin; apply Hbefore; right; exact Hin|].
    split; [|split].
    + destruct IH as [E|E]; rewrite E; [left | right]; reflexivity.
    + intros Hf. rewrite (IHe Hf). reflexivity.
    + intros Hf. rewrite (IHr Hf). reflexivity.
Qed.

Lemma get_configs_returns (config : section) (keys : list string) :
  returns (get_configs config keys) <->
  forall key, In key keys -> key_is_number config key.
Proof.
  induction keys as [|k keys IH]; simpl.
  - split; [intros _ key [] | intros _; eexists; reflexivity].
  - split.
    + intros [vs H]. apply bind_ret_inv in H. destruct H as [v [Hv H]].
      apply bind_ret_inv in H. destruct H as [rest [Hrest _]].
      intros key [<-|Hin].
      * destruct (get_config_cases config k) as [[w [E _]]|[[_ E]|[_ E]]];
          [exists w; exact E | congruence | congruence].
      * apply IH; [eexists; exact Hrest | exact Hin].
    + intros Hall.
      destruct (get_config_number config k) as [v Hv];
        [apply Hall; left; reflexivity|].
      destruct (proj2 IH) as [vs Hvs];
        [intros key Hin; apply Hall; right; exact Hin|].
      rewrite Hv, Hvs. eexists. reflexivity.
Qed.

Lemma total_rate_stops_at (config : section) (before after : list string)
  (key : string) :
  rate_keys = before ++ key :: after ->
  (forall earlier, In earlier before -> key_is_number config earlier) ->
  (key_unusable config key -> fails (social_insurance_total_rate config)) /\
  (key_exits config key -> social_insurance_total_rate config = Exit) /\
  (key_raises config key -> social_insurance_total_rate config = Raised).
Proof.
  intros Heq Hbefore. rewrite total_rate_of_get_configs, Heq.
  split; [|split]; intros Hkey.
  - destruct (get_configs_stops_at config before after key _ Hbefore eq_refl
                (get_config_unusable _ _ Hkey)) as [[E|E] _];
      rewrite E; [left | right]; reflexivity.
  - pose proof (get_config_exits _ _ Hkey) as E.
    destruct (get_configs_stops_at config before after key Exit Hbefore E
                (or_introl eq_refl)) as [_ [H _]].
    rewrite (H eq_refl). reflexivity.
  - pose proof (get_config_raises _ _ Hkey) as E.
    destruct (get_configs_stops_at config before after key Raised Hbefore E
                (or_intror eq_refl)) as [_ [_ H]].
    rewrite (H eq_refl). reflexivity.
Qed.













Lemma calculate_returns (config : section) (now employee_id : string)
  (income : Z) (withheld : Q) :
  calc_social_insurance_money config income = Ret withheld ->
  int_too_large income = false ->
  returns (calculate config now employee_id income).
Proof.
  intros H Hrange. unfold calculate, calc_income_tax_and_remain.
  rewrite H, (float_of_int_in_range _ Hrange).
  cbn [bind].
  destruct (lookup INCOME_TAX_QUICK_LOOKUP_TABLE
              (inject_Z income - withheld - INCOME_TAX_START_POINT));
    eexists; reflexivity.
Qed.


Section PipelineFacts.

Variable py_strip : string -> string.
Variable py_int : string -> option Z.
Variable config : section.

Abbreviation step := (step py_strip py_int config).
Abbreviation reachable := (reachable py_strip py_int config).
Abbreviation read := (_read_users_data py_strip py_int).
Abbreviation count := (count_occ string_dec).

Lemma count_cons (a : string) (l : list string) (x : string) :
  count (a :: l) x = (count [a] x + count l x)%nat.
Proof. change (a :: l) with ([a] ++ l). apply count_occ_app. Qed.

Lemma count_held_or_lost (now : string) (item : record) (x : string) :
  (count (held_ids (after_calculating config now item)) x
   + count (lost_ids (after_calculating config now item)) x
   = count [fst item] x)%nat.
Proof.
  unfold after_calculating.
  destruct (calculate config now (fst item) (snd item)) as [result| |] eqn:Hc;
    simpl held_ids; simpl lost_ids.
  - rewrite (calculate_employee_id _ _ _ _ _ Hc). simpl. lia.
  - simpl. lia.
  - simpl. lia.
Qed.

Lemma source_ids_after_reading (lines : list string) :
  source_ids py_strip py_int (after_reading py_strip py_int lines)
  = source_ids py_strip py_int (SourceReading lines).
Proof.
  unfold after_reading. simpl.
  destruct (read lines); reflexivity.
Qed.

(** A step moves an id from one place to the next and changes nothing else. *)
Lemma step_conserves (s s' : pipeline) (x : string) :
  step s s' ->
  (count (emitted s') x + count (upstream py_strip py_int s') x
   + count (lost s') x
   = count (emitted s) x + count (upstream py_strip py_int s) x
     + count (lost s) x)%nat.
Proof.
  intros Hstep.
  destruct Hstep; unfold emitted, upstream, lost; cbn [source userdata_queue
    calculators export_queue exporter file];
    rewrite ?source_ids_after_reading;
    rewrite ?map_app, ?flat_map_app; cbn [map flat_map source_ids];
    rewrite ?count_occ_app;
    repeat match goal with
           | |- context [count (?a :: ?l) x] =>
               lazymatch l with
               | [] => fail
               | _ => rewrite (count_cons a l x)
               end
           end;
    rewrite ?count_occ_app;
    try (pose proof (count_held_or_lost now item x));
    cbn [held_ids lost_ids app]; rewrite ?count_occ_app;
    unfold record in *; change (count_occ string_dec [] x) with 0%nat; lia.
Qed.

Lemma reachable_conserves (s0 s : pipeline) (x : string) :
  reachable s0 s ->
  (count (emitted s) x + count (upstream py_strip py_int s) x
   + count (lost s) x
   = count (emitted s0) x + count (upstream py_strip py_int s0) x
     + count (lost s0) x)%nat.
Proof.
  induction 1 as [|s s' _ IH Hstep]; [reflexivity|].
  rewrite (step_conserves _ _ x Hstep). exact IH.
Qed.

Lemma initial_accounts (workers : nat) (lines : list string)
  (batch : list record) (x : string) :
  read lines = Ret batch ->
  (count (emitted (initial workers lines)) x
   + count (upstream py_strip py_int (initial workers lines)) x
   + count (lost (initial workers lines)) x
   = count (map fst batch) x)%nat.
Proof.
  intros Hread. unfold emitted, upstream, lost, initial.
  cbn [source userdata_queue calculators export_queue file source_ids map].
  rewrite Hread.
  rewrite !flat_map_repeat_nil by reflexivity.
  rewrite ?count_occ_app. simpl. lia.
Qed.

(** Every id the source read is in exactly one place at any time. *)
Lemma accounted (workers : nat) (lines : list string) (batch : list record)
  (s : pipeline) :
  read lines = Ret batch ->
  reachable (initial workers lines) s ->
  Permutation (emitted s ++ upstream py_strip py_int s ++ lost s)
              (map fst batch).
Proof.
  intros Hread Hreach.
  apply (Permutation_count_occ string_dec). intros x.
  rewrite ?count_occ_app.
  pose proof (reachable_conserves _ _ x Hreach) as H.
  rewrite (initial_accounts workers lines batch x Hread) in H. lia.
Qed.

(** When the source has nothing to put, nothing ever moves. *)
Lemma nothing_moves_invariant (workers : nat) (lines : list string)
  (s : pipeline) :
  (forall item items, read lines <> Ret (item :: items)) ->
  reachable (initial workers lines) s ->
  nothing_moves py_strip py_int lines s.
Proof.
  intros Hnone Hreach. induction Hreach as [|s s' _ IH Hstep].
  - unfold nothing_moves, initial. simpl. repeat split; auto.
    induction workers; [reflexivity | simpl; assumption].
  - destruct IH as [Hsrc [Hqa [Hcs [Hqb Hf]]]].
    destruct Hstep; simpl in *; unfold nothing_moves; simpl;
      try discriminate;
      try (rewrite forallb_middle in Hcs; simpl in Hcs;
           rewrite ?andb_false_r in Hcs; try discriminate).
    + repeat split; auto. right.
      destruct Hsrc as [Hsrc|Hsrc].
      * inversion Hsrc; subst. reflexivity.
      * exfalso. unfold after_reading in Hsrc.
        destruct (read lines); discriminate.
    + exfalso. destruct Hsrc as [Hsrc|Hsrc]; [discriminate|].
      unfold after_reading in Hsrc.
      destruct (read lines) as [[|i l]| |] eqn:Hr; try discriminate.
      exact (Hnone i l eq_refl).
    + repeat split; auto. rewrite forallb_middle. simpl.
      rewrite andb_true_r in Hcs. rewrite andb_true_r. exact Hcs.
    + repeat split; auto.
Qed.


Lemma source_records_after_reading (lines : list string) :
  source_records py_strip py_int (after_reading py_strip py_int lines)
  = ingested py_strip py_int lines.
Proof.
  unfold after_reading, ingested. simpl.
  destruct (_read_users_data py_strip py_int lines); reflexivity.
Qed.

Lemma weight_after_reading (lines : list string) :
  (source_weight py_strip py_int (after_reading py_strip py_int lines) + 1
   = source_weight py_strip py_int (SourceReading lines))%nat.
Proof.
  unfold after_reading, source_weight, ingested.
  destruct (_read_users_data py_strip py_int lines); simpl; lia.
Qed.

Lemma weight_after_calculating (now : string) (item : record) :
  (calculator_weight (after_calculating config now item) <= 3)%nat.
Proof.
  unfold after_calculating.
  destruct (calculate config now (fst item) (snd item)); simpl; lia.
Qed.

(** Every step uses up some of the weight of the state. *)
Lemma step_uses_weight (s s' : pipeline) :
  step s s' ->
  (weight py_strip py_int s' < weight py_strip py_int s)%nat.
Proof.
  intros Hstep. unfold weight.
  destruct Hstep; cbn [source userdata_queue calculators export_queue
                       exporter source_weight exporter_weight];
    rewrite ?map_app, ?list_sum_app, ?length_app;
    cbn [map list_sum fold_right List.length calculator_weight];
    try (pose proof (weight_after_reading lines));
    try (pose proof (weight_after_calculating now item));
    cbn [source_weight List.length] in *; lia.
Qed.

(** *** Runs in which no [get] gives up early *)

Lemma gives_up_early_inv (s s' : pipeline) :
  gives_up_early s s' ->
  source s' = source s /\ userdata_queue s' = userdata_queue s /\
  export_queue s' = export_queue s /\ file s' = file s /\
  ((source_ended (source s) = false /\ exporter s' = exporter s) \/
   (forallb calculator_ended (calculators s) = false /\
    exporter s' <> exporter s)).
Proof.
  intros H. destruct H; simpl; repeat split; auto.
  right. split; [assumption | discriminate].
Qed.

Lemma after_reading_not_reading (lines lines' : list string) :
  after_reading py_strip py_int lines <> SourceReading lines'.
Proof. unfold after_reading. destruct (read lines); discriminate. Qed.

Lemma snoc_not_same {A : Type} (l : list A) (a : A) : l ++ [a] <> l.
Proof.
  intros H. apply (f_equal (@List.length A)) in H.
  rewrite length_app in H. simpl in H. lia.
Qed.

Lemma cons_not_same {A : Type} (l : list A) (a : A) : l <> a :: l.
Proof.
  intros H. apply (f_equal (@List.length A)) in H. simpl in H. lia.
Qed.

Lemma patient_reachable_is_reachable (s0 s : pipeline) :
  patient_reachable py_strip py_int config s0 s -> reachable s0 s.
Proof.
  induction 1 as [|s s' _ IH [Hstep _]]; [apply reach_start|].
  apply (reach_step _ _ _ _ s); assumption.
Qed.

Lemma patient_first (s0 s1 s2 : pipeline) :
  patient_step py_strip py_int config s0 s1 ->
  patient_reachable py_strip py_int config s1 s2 ->
  patient_reachable py_strip py_int config s0 s2.
Proof.
  intros Hstep Hreach. induction Hreach as [|s s' _ IH Hs].
  - apply (patient_next _ _ _ _ s0); [apply patient_start | exact Hstep].
  - apply (patient_next _ _ _ _ s); assumption.
Qed.

Lemma patient_reachable_trans (s0 s1 s2 : pipeline) :
  patient_reachable py_strip py_int config s0 s1 ->
  patient_reachable py_strip py_int config s1 s2 ->
  patient_reachable py_strip py_int config s0 s2.
Proof.
  intros H01 H12. induction H12 as [|s s' _ IH Hs]; [exact H01|].
  apply (patient_next _ _ _ _ s); assumption.
Qed.

(** A state in which some [run] is not over can take a step that is not a
    [get] giving up early. *)
Lemma patient_progress (s : pipeline) :
  terminated s = false -> exists s', patient_step py_strip py_int config s s'.
Proof.
  destruct s as [src qa cs qb e f]. unfold terminated, patient_step.
  cbn [source calculators exporter]. intros Hterm.
  destruct (source_ended src) eqn:Hsrc.
  - destruct (forallb calculator_ended cs) eqn:Hcs.
    + destruct e; [|discriminate].
      destruct qb as [|result qb].
      * eexists. split; [apply step_exporter_timeout|].
        intros Hearly. apply gives_up_early_inv in Hearly. simpl in Hearly.
        destruct Hearly as [_ [_ [_ [_ [[H _]|[H _]]]]]]; congruence.
      * eexists. split; [apply step_write|].
        intros Hearly. apply gives_up_early_inv in Hearly. simpl in Hearly.
        destruct Hearly as [_ [_ [_ [Hf _]]]].
        exact (snoc_not_same _ _ Hf).
    + apply forallb_false_middle in Hcs.
      destruct Hcs as [cs1 [c [cs2 [-> Hc]]]].
      destruct c as [|result| |item']; try discriminate.
      * destruct qa as [|item qa].
        -- eexists. split; [apply step_calculator_timeout|].
           intros Hearly. inversion Hearly; subst; congruence.
        -- eexists. split; [apply (step_calculate _ _ _ EmptyString)|].
           intros Hearly. apply gives_up_early_inv in Hearly.
           simpl in Hearly. destruct Hearly as [_ [Hq _]].
           exact (cons_not_same _ _ Hq).
      * eexists. split; [apply step_export|].
        intros Hearly. apply gives_up_early_inv in Hearly. simpl in Hearly.
        destruct Hearly as [_ [_ [Hq _]]].
        exact (snoc_not_same _ _ Hq).
  - destruct src as [lines|[|item items]|]; try discriminate.
    + eexists. split; [apply step_read|].
      intros Hearly. apply gives_up_early_inv in Hearly. simpl in Hearly.
      destruct Hearly as [Hs _].
      exact (after_reading_not_reading _ _ Hs).
    + eexists. split; [apply step_put|].
      intros Hearly. apply gives_up_early_inv in Hearly. simpl in Hearly.
      destruct Hearly as [_ [Hq _]].
      exact (snoc_not_same _ _ Hq).
Qed.

(** Every run that gives up on time only can be carried on to the end. *)
Lemma patient_run_ends (s : pipeline) :
  exists s_end,
    patient_reachable py_strip py_int config s s_end /\
    terminated s_end = true.
Proof.
  remember (weight py_strip py_int s) as n eqn:Hn. revert s Hn.
  induction n as [n IH] using lt_wf_ind. intros s Hn.
  destruct (terminated s) eqn:Hterm.
  - exists s. split; [apply patient_start | exact Hterm].
  - destruct (patient_progress s Hterm) as [s' Hstep].
    pose proof (step_uses_weight _ _ (proj1 Hstep)) as Hlt.
    destruct (IH (weight py_strip py_int s') ltac:(lia) s' eq_refl)
      as [s_end [Hreach Hend]].
    exists s_end. split; [|exact Hend].
    exact (patient_first _ _ _ Hstep Hreach).
Qed.

Lemma in_middle_replaced {A : Type} (l1 l2 : list A) (a b c : A) :
  In c (l1 ++ b :: l2) -> c <> b -> In c (l1 ++ a :: l2).
Proof.
  intros Hin Hne. apply in_app_or in Hin. apply in_or_app.
  destruct Hin as [Hin|[Hin|Hin]]; [left; exact Hin | congruence |].
  right. right. exact Hin.
Qed.

(** In such a run a calculator has returned only if the source has ended
    and the input queue is empty, and the exporter has closed only if every
    calculator has ended and the export queue is empty. *)
Lemma patient_invariant (workers : nat) (lines : list string) (s : pipeline) :
  patient_reachable py_strip py_int config (initial workers lines) s ->
  List.length (calculators s) = workers /\
  (In CalculatorReturned (calculators s) ->
   source_ended (source s) = true /\ userdata_queue s = []) /\
  (exporter s = ExporterClosed ->
   forallb calculator_ended (calculators s) = true /\ export_queue s = []).
Proof.
  intros Hreach.
  induction Hreach as [|s s' _ [Hlen [Hret Hclosed]] [Hstep Hpatient]].
  - unfold initial. simpl. rewrite repeat_length.
    split; [reflexivity|]. split; [|discriminate].
    intros Hin. apply repeat_spec in Hin. discriminate.
  - destruct Hstep; cbn [source userdata_queue calculators export_queue
                         exporter] in *;
      rewrite ?length_app in *; cbn [List.length] in *;
      (split; [exact Hlen|]).
    + split; [|exact Hclosed].
      intros Hin. destruct (Hret Hin) as [H _]. discriminate.
    + split; [|exact Hclosed].
      intros Hin. destruct (Hret Hin) as [H _]. discriminate.
    + split.
      * intros Hin.
        assert (Hold : In CalculatorReturned (cs1 ++ CalculatorWaiting :: cs2)).
        { apply (in_middle_replaced _ _ _ _ _ Hin).
          unfold after_calculating.
          destruct (calculate config now (fst item) (snd item));
            discriminate. }
        destruct (Hret Hold) as [_ H]. discriminate.
      * intros He. destruct (Hclosed He) as [H _].
        rewrite forallb_middle in H. simpl in H.
        rewrite andb_false_r in H. discriminate.
    + split.
      * intros _. split; [|reflexivity].
        destruct (source_ended src) eqn:Hsrc; [reflexivity|].
        exfalso. apply Hpatient. constructor. exact Hsrc.
      * intros He. destruct (Hclosed He) as [H _].
        rewrite forallb_middle in H. simpl in H.
        rewrite andb_false_r in H. discriminate.
    + split.
      * intros Hin. apply Hret.
        apply (in_middle_replaced _ _ _ _ _ Hin). discriminate.
      * intros He. destruct (Hclosed He) as [H _].
        rewrite forallb_middle in H. simpl in H.
        rewrite andb_false_r in H. discriminate.
    + split; [exact Hret | discriminate].
    + split; [exact Hret|].
      intros _. split; [|reflexivity].
      destruct (forallb calculator_ended cs) eqn:Hcs; [reflexivity|].
      exfalso. apply Hpatient. constructor. exact Hcs.
Qed.

Lemma ended_calculators_hold_nothing (cs : list calculator_state) :
  forallb calculator_ended cs = true -> flat_map held_ids cs = [].
Proof.
  induction cs as [|c cs IH]; simpl; [reflexivity|].
  intros H. apply andb_prop in H. destruct H as [Hc Hcs].
  rewrite (IH Hcs). destruct c; try discriminate; reflexivity.
Qed.

Lemma ended_source_has_nothing (src : source_state) :
  source_ended src = true -> source_ids py_strip py_int src = [].
Proof.
  destruct src as [lines|[|item items]|]; try discriminate; reflexivity.
Qed.

(** When such a run is over and no calculator has died, nothing is left
    upstream. *)
Lemma patient_end_is_clean (workers : nat) (lines : list string)
  (s : pipeline) :
  patient_reachable py_strip py_int config (initial workers lines) s ->
  terminated s = true -> (1 <= workers)%nat -> lost s = [] ->
  userdata_queue s = [] /\ export_queue s = [] /\
  upstream py_strip py_int s = [].
Proof.
  intros Hreach Hterm Hw Hlost.
  destruct (patient_invariant workers lines s Hreach)
    as [Hlen [Hret Hclosed]].
  unfold terminated in Hterm.
  apply andb_prop in Hterm. destruct Hterm as [Hterm He].
  apply andb_prop in Hterm. destruct Hterm as [Hsrc Hcs].
  assert (Hqb : export_queue s = []).
  { destruct (exporter s); [discriminate|]. apply Hclosed. reflexivity. }
  assert (Hqa : userdata_queue s = []).
  { apply Hret. unfold lost in Hlost.
    destruct (calculators s) as [|c cs]; [simpl in Hlen; lia|].
    simpl in Hcs, Hlost. apply andb_prop in Hcs. destruct Hcs as [Hc _].
    destruct c as [|result| |item]; try discriminate.
    left. reflexivity. }
  split; [exact Hqa|]. split; [exact Hqb|].
  unfold upstream.
  rewrite (ended_source_has_nothing _ Hsrc), Hqa, Hqb,
    (ended_calculators_hold_nothing _ Hcs).
  reflexivity.
Qed.

(** When the computation returns for every record read, no calculator
    dies. *)
Lemma no_calculator_dies (workers : nat) (lines : list string)
  (s : pipeline) :
  (forall item now,
      In item (ingested py_strip py_int lines) ->
      returns (calculate config now (fst item) (snd item))) ->
  reachable (initial workers lines) s ->
  lost s = [].
Proof.
  intros Hall Hreach.
  set (known := fun item : record =>
                  In item (ingested py_strip py_int lines)).
  assert (Hinv : Forall known (source_records py_strip py_int (source s)) /\
                 Forall known (userdata_queue s) /\
                 lost s = []).
  { induction Hreach as [|s s' _ [Hsrc [Hqa Hlost]] Hstep].
    - unfold lost, initial. simpl.
      rewrite flat_map_repeat_nil by reflexivity.
      repeat split; [|constructor].
      apply Forall_forall. intros item Hin. exact Hin.
    - unfold lost in *.
      destruct Hstep; cbn [source userdata_queue calculators] in *;
        rewrite ?flat_map_app in *; cbn [flat_map lost_ids app] in *.
      + rewrite source_records_after_reading. repeat split; assumption.
      + simpl in Hsrc. inversion Hsrc; subst.
        repeat split; try assumption.
        apply Forall_app. split; [assumption|].
        constructor; [assumption | constructor].
      + inversion Hqa; subst.
        repeat split; try assumption.
        unfold after_calculating.
        destruct (Hall item now ltac:(assumption)) as [result Hc].
        rewrite Hc. exact Hlost.
      + repeat split; assumption.
      + repeat split; assumption.
      + repeat split; assumption.
      + repeat split; assumption. }
  exact (proj2 (proj2 Hinv)).
Qed.

Lemma ingested_batch (lines : list string) (batch : list record) :
  read lines = Ret batch -> ingested py_strip py_int lines = batch.
Proof. intros H. unfold ingested. rewrite H. reflexivity. Qed.

(** C6, as the program has it.  For every batch the source has read and any
    number of calculators, at every point of every interleaving each id of
    the batch is in exactly one place: written to the file, still upstream
    (with the source, in a queue, in the hands of a calculator), or lost with
    a calculator that died on it.  So no id is written twice or invented, and
    the ids written are those of the batch exactly when nothing is left
    upstream and nothing was lost.  Nothing is lost when the computation
    returns for every record of the batch.  Nothing is left upstream at the
    end of a run in which no [get] gives up while a process that fills its
    queue is still running: with at least one calculator, such a run can
    always be carried on until every [run] is over, and when it is over and
    no calculator has died, both queues are empty and the ids written are
    those of the batch, each as many times as it was read. *)
Theorem every_employee_id_is_accounted_for (workers : nat)
  (lines : list string) (batch : list record) (s : pipeline) :
  read lines = Ret batch ->
  reachable (initial workers lines) s ->
  Permutation (emitted s ++ upstream py_strip py_int s ++ lost s)
              (map fst batch) /\
  (forall x, (count (emitted s) x <= count (map fst batch) x)%nat) /\
  (Permutation (emitted s) (map fst batch) <->
   upstream py_strip py_int s = [] /\ lost s = []) /\
  ((forall item now,
       In item batch -> returns (calculate config now (fst item) (snd item))) ->
   lost s = []) /\
  (patient_reachable py_strip py_int config (initial workers lines) s ->
   (1 <= workers)%nat ->
   (terminated s = true -> lost s = [] ->
    userdata_queue s = [] /\ export_queue s = [] /\
    Permutation (emitted s) (map fst batch)) /\
   (exists s_end,
       patient_reachable py_strip py_int config s s_end /\
       terminated s_end = true /\
       (lost s_end = [] ->
        userdata_queue s_end = [] /\ export_queue s_end = [] /\
        Permutation (emitted s_end) (map fst batch)))).
Proof.
  intros Hread Hreach.
  pose proof (accounted workers lines batch s Hread Hreach) as Hacc.
  split; [exact Hacc|]. split; [|split; [|split]].
  - intros x.
    rewrite <- (proj1 (Permutation_count_occ string_dec _ _) Hacc x).
    rewrite count_occ_app. lia.
  - split.
    + intros Hperm.
      pose proof (Permutation_length Hacc) as Hl1.
      pose proof (Permutation_length Hperm) as Hl2.
      rewrite !length_app in Hl1.
      split; apply length_zero_iff_nil; lia.
    + intros [Hup Hlost]. rewrite Hup, Hlost, !app_nil_r in Hacc. exact Hacc.
  - intros Hall. apply (no_calculator_dies workers lines s); [|exact Hreach].
    rewrite (ingested_batch _ _ Hread). exact Hall.
  - intros Hpatient Hw.
    assert (Hend : forall s',
               patient_reachable py_strip py_int config
                                 (initial workers lines) s' ->
               terminated s' = true -> lost s' = [] ->
               userdata_queue s' = [] /\ export_queue s' = [] /\
               Permutation (emitted s') (map fst batch)).
    { intros s' Hp Hterm Hlost.
      destruct (patient_end_is_clean workers lines s' Hp Hterm Hw Hlost)
        as [Hqa [Hqb Hup]].
      split; [exact Hqa|]. split; [exact Hqb|].
      pose proof (accounted workers lines batch s' Hread
                    (patient_reachable_is_reachable _ _ Hp)) as Hacc'.
      rewrite Hup, Hlost, !app_nil_r in Hacc'. exact Hacc'. }
    split; [exact (Hend s Hpatient)|].
    destruct (patient_run_ends s) as [s_end [Hrun Hterm]].
    exists s_end. split; [exact Hrun|]. split; [exact Hterm|].
    apply Hend; [|exact Hterm].
    exact (patient_reachable_trans _ _ _ Hpatient Hrun).
Qed.

(** C7. If a line of the input does not parse, because it does not have two
    fields or because its income is not an integer, the reader never returns
    its list and the source process ends there: no record is put on the
    input queue, also none of the lines before the bad one, no calculator
    gets a record and nothing is written. *)
Theorem parse_failure_stops_the_batch (workers : nat) (lines : list string)
  (line : string) :
  In line lines ->
  parse_failure py_strip py_int line ->
  (forall items, read lines <> Ret items) /\
  after_reading py_strip py_int lines = SourceDead /\
  forall s,
    reachable (initial workers lines) s ->
    (source s = SourceReading lines \/ source s = SourceDead) /\
    userdata_queue s = [] /\
    forallb calculator_idle (calculators s) = true /\
    export_queue s = [] /\
    file s = [].
Proof.
  intros Hin Hbad.
  pose proof (read_users_data_fails py_strip py_int lines line Hin
                (read_line_fails py_strip py_int line Hbad)) as Hfail.
  assert (Hdead : after_reading py_strip py_int lines = SourceDead).
  { unfold after_reading. destruct (read lines) as [items| |] eqn:Hr;
      [exfalso; exact (Hfail items eq_refl) | reflexivity | reflexivity]. }
  split; [exact Hfail|]. split; [exact Hdead|].
  intros s Hreach.
  assert (Hnone : forall item items, read lines <> Ret (item :: items))
    by (intros item items; apply Hfail).
  destruct (nothing_moves_invariant workers lines s Hnone Hreach)
    as [Hsrc H]. rewrite Hdead in Hsrc. split; assumption.
Qed.


End PipelineFacts.

(* ================================================================= *)
(** ** Runs of the pipeline *)

Lemma reach_first (py_strip : string -> string) (py_int : string -> option Z)
  (config : section) (s0 s1 s2 : pipeline) :
  step py_strip py_int config s0 s1 ->
  reachable py_strip py_int config s1 s2 ->
  reachable py_strip py_int config s0 s2.
Proof.
  intros Hstep Hreach. induction Hreach as [|s s' _ IH Hs].
  - apply (reach_step _ _ _ _ s0); [apply reach_start | exact Hstep].
  - apply (reach_step _ _ _ _ s); assumption.
Qed.

(** The calculator and the exporter give up before the source has read its
    file: the record is put on a queue nobody reads any more. *)
Lemma early_timeouts_drop_the_batch :
  _read_users_data ascii_strip decimal_int ["101,10000"%string]
  = Ret [("101"%string, 10000%Z)] /\
  exists s,
    reachable ascii_strip decimal_int scenario_config
              (initial 1 ["101,10000"%string]) s /\
    terminated s = true /\
    userdata_queue s = [("101"%string, 10000%Z)] /\
    ~ Permutation (emitted s) (map fst [("101"%string, 10000%Z)]).
Proof.
  split; [reflexivity|].
  exists (Pipeline (SourcePutting []) [("101"%string, 10000%Z)]
                   [CalculatorReturned] [] ExporterClosed []).
  split; [|split; [reflexivity|split; [reflexivity|]]].
  - unfold initial. simpl repeat.
    eapply reach_first;
      [exact (step_calculator_timeout _ _ _ _ [] [] _ _ _)|].
    eapply reach_first; [exact (step_exporter_timeout _ _ _ _ _ _ _)|].
    eapply reach_first; [exact (step_read _ _ _ _ _ _ _ _ _)|].
    eapply reach_first;
      [exact (step_put _ _ _ ("101"%string, 10000%Z) [] _ _ _ _ _)|].
    apply reach_start.
  - simpl. intros H. apply Permutation_nil in H. discriminate.
Qed.

Lemma every_employee_id_is_accounted_for_witness :
  exists s_end,
    patient_reachable ascii_strip decimal_int scenario_config
                      (initial 1 ["101,10000"%string]) s_end /\
    terminated s_end = true /\
    userdata_queue s_end = [] /\ export_queue s_end = [] /\
    Permutation (emitted s_end) ["101"%string].
Proof.
  assert (Hread : _read_users_data ascii_strip decimal_int ["101,10000"%string]
                  = Ret [("101"%string, 10000%Z)]) by reflexivity.
  assert (Hall : forall item now,
             In item [("101"%string, 10000%Z)] ->
             returns (calculate scenario_config now (fst item) (snd item))).
  { intros item now [<-|[]].
    apply (calculate_returns scenario_config now "101" 10000
             (insurance_of 3000 20000 (py_sum [0.08; 0.02; 0.005; 0; 0; 0])
                           10000)); reflexivity. }
  destruct (every_employee_id_is_accounted_for ascii_strip decimal_int
              scenario_config 1 _ _ _ Hread
              (reach_start _ _ _ (initial 1 ["101,10000"%string])))
    as [_ [_ [_ [_ Hpatient]]]].
  destruct (Hpatient (patient_start _ _ _ _) (le_n 1))
    as [_ [s_end [Hrun [Hterm Hclean]]]].
  destruct (every_employee_id_is_accounted_for ascii_strip decimal_int
              scenario_config 1 _ _ _ Hread
              (patient_reachable_is_reachable _ _ _ _ _ Hrun))
    as [_ [_ [_ [Hlost _]]]].
  exists s_end. split; [exact Hrun|]. split; [exact Hterm|].
  exact (Hclean (Hlost Hall)).
Defined.

Lemma parse_failure_stops_the_batch_witness :
  after_reading ascii_strip decimal_int
                ["101,5000"; "102,abc"; "103,7000"]%string = SourceDead /\
  forall s,
    reachable ascii_strip decimal_int scenario_config
              (initial 1 ["101,5000"; "102,abc"; "103,7000"]%string) s ->
    userdata_queue s = [] /\ file s = [].
Proof.
  assert (Hin : In "102,abc"%string ["101,5000"; "102,abc"; "103,7000"]%string)
    by (simpl; tauto).
  assert (Hbad : parse_failure ascii_strip decimal_int "102,abc").
  { right. exists "102"%string, "abc"%string. split; reflexivity. }
  destruct (parse_failure_stops_the_batch ascii_strip decimal_int
              scenario_config 1 _ _ Hin Hbad) as [_ [Hdead Hinv]].
  split; [exact Hdead|].
  intros s Hreach. destruct (Hinv s Hreach) as [_ [Hqa [_ [_ Hf]]]].
  split; assumption.
Defined.



(** A value [float] reads as nan is a number for [_get_config]: nothing is
    refused.  A floor that is nan compares false with every income, and the
    row is that of a floor never reached; a rate that is nan gives a row of
    nan amounts with no tax. *)
Lemma nan_is_not_refused :
  Binary64.calculate PrimFloat.nan 20000 0.105 10000
  = ("1050.00", "535.00", "8415.00")%string /\
  Binary64.calculate 3000 20000 PrimFloat.nan 10000
  = ("nan", "0.00", "nan")%string.
Proof. split; vm_compute; reflexivity. Qed.

(* ================================================================= *)
(** * Further properties of the program *)

(* ================================================================= *)
(** ** Amounts *)

Lemma tax_of_bounds (real_income : Q) :
  (real_income - INCOME_TAX_START_POINT <= 0 -> tax_of real_income = 0) /\
  (0 < real_income - INCOME_TAX_START_POINT ->
   (3 # 100) * (real_income - INCOME_TAX_START_POINT) <= tax_of real_income /\
   tax_of real_income <= (45 # 100) * (real_income - INCOME_TAX_START_POINT)).
Proof.
  unfold tax_of, INCOME_TAX_START_POINT.
  destruct (lookup_by_interval (real_income - 3500))
    as [[Hx Hl]|[[Hx Hl]|[[Hx Hl]|[[Hx Hl]|[[Hx Hl]|[[Hx Hl]|[[Hx Hl]|
        [Hx Hl]]]]]]]];
    rewrite Hl; unfold quick_tax; simpl; split; intros; try reflexivity;
    try lra.
Qed.

(** X1.
    Whenever there is a real income, the insurance being computed and the
    income being one that line 181 converts, the tax is never negative.  On
    a positive taxable amount it is at least 3% and at most 45% of that
    amount, so the remainder is never more than the real income and never
    less than the real income minus 45% of the taxable amount. *)
Theorem tax_between_lowest_and_highest_rate (config : section) (income : Z)
  (withheld : Q) :
  calc_social_insurance_money config income = Ret withheld ->
  int_too_large income = false ->
  exists tax remain,
    income_tax_and_remain config income = Ret (tax, remain) /\
    calc_income_tax_and_remain config income
    = Ret (format_2f tax, format_2f remain) /\
    remain == real_income_of income withheld - tax /\
    0 <= tax /\
    remain <= real_income_of income withheld /\
    (0 < taxable_part_of income withheld ->
     (3 # 100) * taxable_part_of income withheld <= tax /\
     tax <= (45 # 100) * taxable_part_of income withheld /\
     real_income_of income withheld
     - (45 # 100) * taxable_part_of income withheld <= remain).
Proof.
  intros Hw Hrange.
  pose proof (calc_income_tax_and_remain_formats config income) as Hf.
  destruct (tax_of_bounds (real_income_of income withheld)) as [Hzero Hpos].
  fold (taxable_part_of income withheld) in Hzero, Hpos.
  destruct (income_tax_and_remain_resolved _ _ _ Hw Hrange) as [E|[Hnone E]];
    rewrite E in Hf; cbn [bind fst snd] in Hf;
    do 2 eexists; (split; [exact E|]); (split; [exact Hf|]).
  - destruct (Qlt_le_dec 0 (taxable_part_of income withheld)) as [Hp|Hn].
    + destruct (Hpos Hp) as [Hlow Hhigh].
      split; [reflexivity|]. split; [lra|]. split; [lra|].
      intros _. split; [lra|]. split; lra.
    + rewrite (Hzero Hn).
      split; [reflexivity|]. split; [lra|]. split; [lra|].
      intros Hp. lra.
  - split; [lra|]. split; [lra|]. split; [lra|].
    intros Hp. destruct (Hpos Hp) as [Hlow Hhigh].
    rewrite Hnone in Hlow, Hhigh. split; [lra|]. split; lra.
Qed.

Lemma tax_between_lowest_and_highest_rate_witness :
  exists tax remain,
    income_tax_and_remain scenario_config 10000 = Ret (tax, remain) /\
    0 <= tax /\ remain <= real_income_of 10000 (insurance_of 3000 20000
                             (py_sum [0.08; 0.02; 0.005; 0; 0; 0]) 10000).
Proof.
  destruct (tax_between_lowest_and_highest_rate scenario_config 10000 _
              (calc_social_insurance_money_resolved _ _ _ _ 10000
                 scenario_config_resolves) eq_refl)
    as [tax [remain [E [_ [_ [H0 [H1 _]]]]]]].
  exists tax, remain. repeat split; assumption.
Defined.

(** X2.
    With a rate of zero or more and a floor not above the ceiling, the
    insurance withheld lies between floor times rate and ceiling times rate,
    and it does not go down when the income goes up. *)
Theorem insurance_between_floor_and_ceiling (config : section)
  (lo hi r : Q) (a b : Z) :
  resolves config lo hi r -> 0 <= r -> lo <= hi -> (a <= b)%Z ->
  exists withheld_a withheld_b,
    calc_social_insurance_money config a = Ret withheld_a /\
    calc_social_insurance_money config b = Ret withheld_b /\
    lo * r <= withheld_a /\ withheld_a <= withheld_b /\ withheld_b <= hi * r.
Proof.
  intros Hres Hr Hle Hab. rewrite Zle_Qle in Hab.
  rewrite !(calc_social_insurance_money_resolved _ _ _ _ _ Hres).
  do 2 eexists. split; [reflexivity|]. split; [reflexivity|].
  unfold insurance_of. revert Hab.
  generalize (inject_Z a) (inject_Z b). intros x y Hxy.
  assert (Hmono : forall u v, u <= v -> u * r <= v * r)
    by (intros u v Huv; apply Qmult_le_compat_r; assumption).
  pose proof (Hmono lo hi Hle).
  destruct (Qlt_le_dec x lo), (Qlt_le_dec y lo),
           (Qlt_le_dec hi x), (Qlt_le_dec hi y); cbv iota;
    repeat split; try lra;
    first [ apply Hmono; lra | apply Qle_refl ].
Qed.

Lemma insurance_between_floor_and_ceiling_witness :
  exists withheld_a withheld_b,
    calc_social_insurance_money scenario_config 2000 = Ret withheld_a /\
    calc_social_insurance_money scenario_config 50000 = Ret withheld_b /\
    3000 * py_sum [0.08; 0.02; 0.005; 0; 0; 0] <= withheld_a /\
    withheld_a <= withheld_b /\
    withheld_b <= 20000 * py_sum [0.08; 0.02; 0.005; 0; 0; 0].
Proof.
  apply (insurance_between_floor_and_ceiling scenario_config 3000 20000
           (py_sum [0.08; 0.02; 0.005; 0; 0; 0]) 2000 50000).
  - exact scenario_config_resolves.
  - vm_compute; discriminate.
  - vm_compute; discriminate.
  - lia.
Defined.

(* ================================================================= *)
(** ** Reading the configuration *)

Lemma get_config_ret (config : section) (key : string) (v : Q) :
  _get_config config key = Ret v <-> section_get config key = Some (Number v).
Proof.
  unfold _get_config.
  destruct (section_get config key) as [[w| |]|]; split; intros H;
    try discriminate; inversion H; reflexivity.
Qed.

(** X3.
    The combined rate is read exactly when each of the six rates is in the
    section and is a number, and it is then their sum.  Otherwise the first
    of the six, in the order written, that is not a number decides how the
    property ends: the message and the exit for a key that is missing or a
    text [float] refuses, an exception nobody catches for a text that
    cannot be interpolated. *)
Theorem combined_rate_is_sum_of_six_rates (config : section) :
  (returns (social_insurance_total_rate config) <->
   forall key, In key rate_keys -> key_is_number config key) /\
  (forall r,
      social_insurance_total_rate config = Ret r ->
      exists yanglao yiliao shiye gongshang shengyu gongjijin,
        section_get config "YangLao" = Some (Number yanglao) /\
        section_get config "YiLiao" = Some (Number yiliao) /\
        section_get config "ShiYe" = Some (Number shiye) /\
        section_get config "GongShang" = Some (Number gongshang) /\
        section_get config "ShengYu" = Some (Number shengyu) /\
        section_get config "GongJiJin" = Some (Number gongjijin) /\
        r == yanglao + yiliao + shiye + gongshang + shengyu + gongjijin) /\
  (forall before key after,
      rate_keys = before ++ key :: after ->
      (forall earlier, In earlier before -> key_is_number config earlier) ->
      (key_exits config key -> social_insurance_total_rate config = Exit) /\
      (key_raises config key ->
       social_insurance_total_rate config = Raised)).
Proof.
  assert (Hinv : forall r,
             social_insurance_total_rate config = Ret r ->
             exists a b c d e f,
               _get_config config "YangLao" = Ret a /\
               _get_config config "YiLiao" = Ret b /\
               _get_config config "ShiYe" = Ret c /\
               _get_config config "GongShang" = Ret d /\
               _get_config config "ShengYu" = Ret e /\
               _get_config config "GongJiJin" = Ret f /\
               r = py_sum [a; b; c; d; e; f]).
  { intros r H. unfold social_insurance_total_rate in H.
    apply bind_ret_inv in H. destruct H as [a [Ha H]].
    apply bind_ret_inv in H. destruct H as [b [Hb H]].
    apply bind_ret_inv in H. destruct H as [c [Hc H]].
    apply bind_ret_inv in H. destruct H as [d [Hd H]].
    apply bind_ret_inv in H. destruct H as [e [He H]].
    apply bind_ret_inv in H. destruct H as [f [Hf H]].
    inversion H. exists a, b, c, d, e, f. repeat split; assumption. }
  split; [|split].
  - rewrite <- get_configs_returns, total_rate_of_get_configs.
    unfold returns. split.
    + intros [r Hr]. apply bind_ret_inv in Hr. destruct Hr as [rates [Hr _]].
      exists rates. exact Hr.
    + intros [rates Hr]. rewrite Hr. eexists. reflexivity.
  - intros r Hr.
    destruct (Hinv r Hr)
      as [a [b [c [d [e [f [Ha [Hb [Hc [Hd [He [Hf ->]]]]]]]]]]]].
    exists a, b, c, d, e, f.
    rewrite get_config_ret in Ha, Hb, Hc, Hd, He, Hf.
    repeat (split; [assumption|]).
    unfold py_sum. simpl. lra.
  - intros before key after Heq Hbefore.
    destruct (total_rate_stops_at config before after key Heq Hbefore)
      as [_ H].
    exact H.
Qed.

(* ================================================================= *)
(** ** Lines of the user-data file *)

Lemma split_comma_not_nil (s : string) : split_comma s <> [].
Proof.
  destruct s as [|c rest]; simpl; [discriminate|].
  destruct (Ascii.eqb c ","); [discriminate|].
  destruct (split_comma rest); discriminate.
Qed.

Lemma ascii_eqb_comma (c : ascii) : Ascii.eqb c "," = true -> c = ","%char.
Proof. apply Ascii.eqb_eq. Qed.

(** Joining the fields of a line gives the line back. *)
Lemma join_split_comma (s : string) : join_comma (split_comma s) = s.
Proof.
  unfold join_comma. induction s as [|c rest IH]; [reflexivity|].
  simpl split_comma. destruct (Ascii.eqb c ",") eqn:Hc.
  - apply ascii_eqb_comma in Hc. subst c.
    pose proof (split_comma_not_nil rest) as Hne.
    destruct (split_comma rest) as [|f fs]; [contradiction|].
    change (String.concat "," (EmptyString :: f :: fs))
      with (String "," (String.concat "," (f :: fs))).
    rewrite IH. reflexivity.
  - pose proof (split_comma_not_nil rest) as Hne.
    destruct (split_comma rest) as [|f fs]; [contradiction|].
    destruct fs as [|g gs].
    + simpl in *. rewrite IH. reflexivity.
    + change (String.concat "," (String c f :: g :: gs))
        with (String c (f ++ "," ++ String.concat "," (g :: gs)))%string.
      change (String.concat "," (f :: g :: gs))
        with (f ++ "," ++ String.concat "," (g :: gs))%string in IH.
      rewrite IH. reflexivity.
Qed.

Lemma split_comma_fields (s : string) :
  Forall (fun field => has_comma field = false) (split_comma s).
Proof.
  induction s as [|c rest IH]; simpl.
  - repeat constructor.
  - destruct (Ascii.eqb c ",") eqn:Hc.
    + constructor; [reflexivity | exact IH].
    + destruct (split_comma rest) as [|f fs]; [repeat constructor; simpl;
        rewrite Hc; reflexivity|].
      inversion IH; subst. constructor; [|assumption].
      simpl. rewrite Hc. assumption.
Qed.

Lemma split_comma_prepend (field rest : string) :
  has_comma field = false ->
  split_comma (field ++ String "," rest) = field :: split_comma rest.
Proof.
  induction field as [|c field IH]; simpl; intros Hf.
  - reflexivity.
  - apply orb_false_iff in Hf. destruct Hf as [Hc Hf].
    rewrite Hc, (IH Hf). reflexivity.
Qed.

Lemma split_comma_single (field : string) :
  has_comma field = false -> split_comma field = [field].
Proof.
  induction field as [|c field IH]; simpl; intros Hf; [reflexivity|].
  apply orb_false_iff in Hf. destruct Hf as [Hc Hf].
  rewrite Hc, (IH Hf). reflexivity.
Qed.

(** A line has the two fields [a] and [b] exactly when it is [a], a comma
    and [b], with no other comma. *)
Lemma split_comma_two (s a b : string) :
  split_comma s = [a; b] <->
  s = (a ++ "," ++ b)%string /\ has_comma a = false /\ has_comma b = false.
Proof.
  split.
  - intros H. split.
    + rewrite <- (join_split_comma s) at 1. rewrite H. reflexivity.
    + pose proof (split_comma_fields s) as Hf. rewrite H in Hf.
      inversion Hf as [|? ? Ha Hf']. inversion Hf' as [|? ? Hb _].
      split; assumption.
  - intros [-> [Ha Hb]].
    change (a ++ "," ++ b)%string with (a ++ String "," b)%string.
    rewrite (split_comma_prepend a b Ha), (split_comma_single b Hb).
    reflexivity.
Qed.

Section ReaderFacts.

Variable py_strip : string -> string.
Variable py_int : string -> option Z.

(** X4.
    The reader takes a line exactly when, stripped, it is an employee id, one
    comma and a text that [int] accepts, the id and the text having no comma
    of their own; the record is the id and that integer. *)
Theorem read_line_takes_id_comma_integer (line employee_id : string)
  (income : Z) :
  read_line py_strip py_int line = Ret (employee_id, income) <->
  exists income_string,
    py_strip line = (employee_id ++ "," ++ income_string)%string /\
    has_comma employee_id = false /\
    has_comma income_string = false /\
    py_int income_string = Some income.
Proof.
  unfold read_line. split.
  - intros H.
    destruct (split_comma (py_strip line)) as [|a [|b [|c fs]]] eqn:Hs;
      try discriminate.
    destruct (py_int b) as [n|] eqn:Hn; try discriminate.
    inversion H; subst.
    apply split_comma_two in Hs. destruct Hs as [Hl [Ha Hb]].
    exists b. repeat split; assumption.
  - intros [text [Hl [Ha [Hb Hn]]]].
    assert (Hs : split_comma (py_strip line) = [employee_id; text])
      by (apply split_comma_two; repeat split; assumption).
    rewrite Hs, Hn. reflexivity.
Qed.

(** X5.
    The reader returns its list exactly when every line is taken, and the
    list then has one record per line, in the order of the lines. *)
Theorem read_users_data_is_line_by_line (lines : list string)
  (items : list record) :
  _read_users_data py_strip py_int lines = Ret items <->
  Forall2 (fun line item => read_line py_strip py_int line = Ret item)
          lines items.
Proof.
  revert items. induction lines as [|line rest IH]; intros items; simpl.
  - split.
    + intros H. inversion H. constructor.
    + intros H. inversion H. reflexivity.
  - split.
    + intros H. apply bind_ret_inv in H. destruct H as [item [Hitem H]].
      apply bind_ret_inv in H. destruct H as [userdata [Hrest H]].
      inversion H; subst. constructor; [exact Hitem|].
      apply IH. exact Hrest.
    + intros H. inversion H as [|? item ? userdata Hitem Hrest]; subst.
      apply IH in Hrest. rewrite Hitem, Hrest. reflexivity.
Qed.

Lemma read_users_data_app_fails (good rest : list string) (bad : string)
  (failure : outcome (list record)) :
  Forall (fun line => returns (read_line py_strip py_int line)) good ->
  (item <- read_line py_strip py_int bad ;;
   userdata <- _read_users_data py_strip py_int rest ;;
   Ret (item :: userdata)) = failure ->
  (forall items, failure <> Ret items) ->
  _read_users_data py_strip py_int (good ++ bad :: rest) = failure.
Proof.
  intros Hgood Hbad Hfail.
  induction Hgood as [|line good [item Hitem] _ IH]; simpl.
  - exact Hbad.
  - rewrite Hitem, IH. cbn [bind].
    destruct failure as [items| |]; try reflexivity.
    exfalso. exact (Hfail items eq_refl).
Qed.

(** X6.
    The reader ends the way its first bad line makes it end: a line that
    does not split into two fields, such as an empty line, raises a
    [ValueError] nobody catches; a line of two fields whose second is not an
    integer gives the message and the exit. *)
Theorem first_bad_line_decides (good rest : list string) (bad : string) :
  Forall (fun line => returns (read_line py_strip py_int line)) good ->
  (List.length (split_comma (py_strip bad)) <> 2%nat ->
   _read_users_data py_strip py_int (good ++ bad :: rest) = Raised) /\
  (forall employee_id income_string,
      split_comma (py_strip bad) = [employee_id; income_string] ->
      py_int income_string = None ->
      _read_users_data py_strip py_int (good ++ bad :: rest) = Exit) /\
  (py_strip bad = EmptyString ->
   _read_users_data py_strip py_int (good ++ bad :: rest) = Raised).
Proof.
  intros Hgood.
  assert (Hraised : List.length (split_comma (py_strip bad)) <> 2%nat ->
                    _read_users_data py_strip py_int (good ++ bad :: rest)
                    = Raised).
  { intros Hlen. apply read_users_data_app_fails;
      [exact Hgood | | discriminate].
    unfold read_line.
    destruct (split_comma (py_strip bad)) as [|a [|b [|c fs]]];
      try reflexivity.
    simpl in Hlen. congruence. }
  split; [exact Hraised|]. split.
  - intros employee_id income_string Hs Hn.
    apply read_users_data_app_fails; [exact Hgood | | discriminate].
    unfold read_line. rewrite Hs, Hn. reflexivity.
  - intros Hempty. apply Hraised. rewrite Hempty. simpl. discriminate.
Qed.

End ReaderFacts.

Lemma first_bad_line_decides_witness :
  _read_users_data ascii_strip decimal_int
                   ["101,5000"; ""; "103,7000"]%string = Raised /\
  _read_users_data ascii_strip decimal_int
                   ["101,5000"; "102,abc"; ""]%string = Exit.
Proof.
  assert (Hgood : Forall (fun line =>
                            returns (read_line ascii_strip decimal_int line))
                         ["101,5000"%string]).
  { constructor; [|constructor]. eexists. reflexivity. }
  split.
  - destruct (first_bad_line_decides ascii_strip decimal_int
                ["101,5000"%string] ["103,7000"%string] "" Hgood)
      as [_ [_ H]].
    apply H. reflexivity.
  - destruct (first_bad_line_decides ascii_strip decimal_int
                ["101,5000"%string] [""%string] "102,abc" Hgood)
      as [_ [H _]].
    apply (H "102"%string "abc"%string); reflexivity.
Defined.

(* ================================================================= *)
(** ** Runs of the three processes *)

Lemma calculate_record (config : section) (now employee_id : string)
  (income : Z) (result : row) :
  calculate config now employee_id income = Ret result ->
  record_of_row result = (employee_id, income).
Proof.
  unfold calculate. intros H.
  apply bind_ret_inv in H. destruct H as [w [_ H]].
  apply bind_ret_inv in H. destruct H as [tr [_ H]].
  inversion H. reflexivity.
Qed.

Lemma singleton_middle {A : Type} (l1 l2 : list A) (a b : A) :
  l1 ++ a :: l2 = [b] -> l1 = [] /\ a = b /\ l2 = [].
Proof.
  destruct l1 as [|x l1]; simpl; intros H; inversion H; subst.
  - auto.
  - destruct l1; discriminate.
Qed.

Lemma reachable_trans (py_strip : string -> string)
  (py_int : string -> option Z) (config : section) (s0 s1 s2 : pipeline) :
  reachable py_strip py_int config s0 s1 ->
  reachable py_strip py_int config s1 s2 ->
  reachable py_strip py_int config s0 s2.
Proof.
  intros H01 H12. induction H12 as [|s s' _ IH Hs]; [exact H01|].
  apply (reach_step _ _ _ _ s); assumption.
Qed.

Section RunFacts.

Variable py_strip : string -> string.
Variable py_int : string -> option Z.
Variable config : section.

Lemma calculator_records_after_calculating (now : string) (item : record) :
  calculator_records (after_calculating config now item) = [item].
Proof.
  unfold after_calculating.
  destruct (calculate config now (fst item) (snd item)) as [result| |] eqn:Hc;
    simpl; try reflexivity.
  rewrite (calculate_record _ _ _ _ _ Hc). destruct item; reflexivity.
Qed.

(** X7.
    With one calculator, which is how the program starts, the records keep
    the order of the file all the way: at every point of every run the
    records written, those in the export queue, the one in the calculator,
    those in the input queue and those the source has still to put are, end
    to end, the list the source read.  So the rows of the file are always
    the first records of the input, in input order. *)
Theorem one_calculator_keeps_the_order (lines : list string) (s : pipeline) :
  reachable py_strip py_int config (initial 1 lines) s ->
  records_downstream_first py_strip py_int s = ingested py_strip py_int lines /\
  exists rest,
    ingested py_strip py_int lines = map record_of_row (file s) ++ rest.
Proof.
  intros Hreach.
  assert (Hinv : (exists c, calculators s = [c]) /\
                 records_downstream_first py_strip py_int s
                 = ingested py_strip py_int lines).
  { induction Hreach as [|s s' _ [[c Hc] IH] Hstep].
    - split; [exists CalculatorWaiting; reflexivity | reflexivity].
    - unfold records_downstream_first in *.
      destruct Hstep; cbn [source userdata_queue calculators export_queue
                           exporter file] in *;
        try (apply singleton_middle in Hc; destruct Hc as [-> [<- ->]]);
        try subst cs;
        cbn [app flat_map calculator_records map source_records] in *;
        (split; [eexists; reflexivity|]).
      + rewrite source_records_after_reading. exact IH.
      + rewrite <- IH, <- !app_assoc. reflexivity.
      + rewrite calculator_records_after_calculating.
        rewrite <- IH. reflexivity.
      + exact IH.
      + rewrite <- IH, map_app, <- !app_assoc. reflexivity.
      + rewrite <- IH, map_app, <- !app_assoc. reflexivity.
      + exact IH. }
  destruct Hinv as [_ Hinv]. split; [exact Hinv|].
  rewrite <- Hinv. unfold records_downstream_first. eexists. reflexivity.
Qed.

Lemma after_calculating_holds (now : string) (item : record) (result : row) :
  after_calculating config now item = CalculatorHolding result ->
  calculate config now (fst item) (snd item) = Ret result /\
  record_of_row result = item.
Proof.
  unfold after_calculating.
  destruct (calculate config now (fst item) (snd item)) as [r| |] eqn:Hc;
    intros H; inversion H; subst.
  split; [reflexivity|].
  rewrite (calculate_record _ _ _ _ _ Hc). destruct item; reflexivity.
Qed.

(** X8.
    Every row in the file is what [calculate] returns for a record the
    source read: it carries the id and the income of that record, and the
    three amounts computed from that income, whatever the number of
    calculators and the interleaving. *)
Theorem written_rows_are_computed_from_the_input (workers : nat)
  (lines : list string) (s : pipeline) :
  reachable py_strip py_int config (initial workers lines) s ->
  Forall (fun r => computed config r /\
                   In (record_of_row r) (ingested py_strip py_int lines))
         (file s).
Proof.
  intros Hreach.
  set (good := fun r => computed config r /\
                        In (record_of_row r) (ingested py_strip py_int lines)).
  set (known := fun item : record =>
                  In item (ingested py_strip py_int lines)).
  assert (Hinv : Forall good (file s) /\
                 Forall good (export_queue s) /\
                 Forall (fun c => forall r, c = CalculatorHolding r -> good r)
                        (calculators s) /\
                 Forall known (userdata_queue s) /\
                 Forall known (source_records py_strip py_int (source s))).
  { induction Hreach as [|s s' _ [Hf [Hqb [Hcs [Hqa Hsrc]]]] Hstep].
    - simpl. repeat split; try constructor.
      + induction workers; simpl; constructor; [discriminate | assumption].
      + apply Forall_forall. intros item Hin. exact Hin.
    - destruct Hstep; cbn [source userdata_queue calculators export_queue
                           exporter file] in *.
      + repeat split; try assumption.
        rewrite source_records_after_reading. exact Hsrc.
      + simpl in Hsrc. inversion Hsrc; subst.
        repeat split; try assumption.
        apply Forall_app.
        split; [assumption | constructor; [assumption|constructor]].
      + inversion Hqa; subst.
        apply Forall_app in Hcs. destruct Hcs as [Hcs1 Hcs2].
        inversion Hcs2; subst.
        repeat split; try assumption.
        apply Forall_app. split; [assumption|].
        constructor; [|assumption].
        intros r Hr. apply after_calculating_holds in Hr.
        destruct Hr as [Hc Hrec]. split.
        * exists now. destruct item as [employee_id income].
          inversion Hrec. simpl in Hc.
          replace (row_employee_id r) with employee_id by congruence.
          replace (row_income r) with income by congruence.
          exact Hc.
        * rewrite Hrec. assumption.
      + apply Forall_app in Hcs. destruct Hcs as [Hcs1 Hcs2].
        inversion Hcs2; subst.
        repeat split; try assumption.
        apply Forall_app. split; [assumption|].
        constructor; [discriminate | assumption].
      + apply Forall_app in Hcs. destruct Hcs as [Hcs1 Hcs2].
        inversion Hcs2 as [|? ? Hheld Hcs2']; subst.
        repeat split; try assumption.
        * apply Forall_app. split; [assumption|].
          constructor; [apply Hheld; reflexivity | constructor].
        * apply Forall_app. split; [assumption|].
          constructor; [discriminate | assumption].
      + inversion Hqb; subst.
        repeat split; try assumption.
        apply Forall_app.
        split; [assumption | constructor; [assumption|constructor]].
      + repeat split; assumption. }
  exact (proj1 Hinv).
Qed.

(** X10.
    Every run ends: a run over a file of n records with w calculators takes
    at most 4 n + w + 2 steps, the weight of the state it has reached
    included. *)
Theorem runs_are_bounded (workers : nat) (lines : list string)
  (n : nat) (s : pipeline) :
  reachable_in py_strip py_int config (initial workers lines) n s ->
  (n + weight py_strip py_int s
   <= 4 * List.length (ingested py_strip py_int lines) + workers + 2)%nat.
Proof.
  intros Hreach. induction Hreach as [|n s s' _ IH Hstep].
  - unfold weight, initial.
    cbn [source userdata_queue calculators export_queue exporter
         source_weight exporter_weight List.length].
    assert (Hsum : list_sum (map calculator_weight
                               (repeat CalculatorWaiting workers)) = workers).
    { induction workers as [|w IHw]; simpl; [reflexivity|].
      rewrite IHw. reflexivity. }
    rewrite Hsum. lia.
  - pose proof (step_uses_weight _ _ _ _ _ Hstep). lia.
Qed.

Lemma after_calculating_returns (now : string) (item : record) (result : row) :
  calculate config now (fst item) (snd item) = Ret result ->
  after_calculating config now item = CalculatorHolding result.
Proof. intros H. unfold after_calculating. rewrite H. reflexivity. Qed.

(** One record through the four steps: put, calculate, export, write. *)
Lemma one_record_through (now : string) (item : record) (result : row)
  (items : list record) (cs : list calculator_state) (f : list row) :
  calculate config now (fst item) (snd item) = Ret result ->
  reachable py_strip py_int config
    (Pipeline (SourcePutting (item :: items)) [] (CalculatorWaiting :: cs) []
              ExporterWaiting f)
    (Pipeline (SourcePutting items) [] (CalculatorWaiting :: cs) []
              ExporterWaiting (f ++ [result])).
Proof.
  intros Hc.
  eapply reach_first; [exact (step_put _ _ _ item items [] _ _ _ _)|].
  eapply reach_first;
    [exact (step_calculate _ _ _ now _ item [] [] cs _ _ _)|].
  rewrite (after_calculating_returns _ _ _ Hc).
  eapply reach_first; [exact (step_export _ _ _ _ _ [] result cs _ _ _)|].
  eapply reach_first; [exact (step_write _ _ _ _ _ _ result [] _)|].
  apply reach_start.
Qed.

Lemma all_records_through (now : string) (items : list record)
  (cs : list calculator_state) (f : list row) :
  (forall item, In item items ->
                returns (calculate config now (fst item) (snd item))) ->
  exists rows,
    map record_of_row rows = items /\
    reachable py_strip py_int config
      (Pipeline (SourcePutting items) [] (CalculatorWaiting :: cs) []
                ExporterWaiting f)
      (Pipeline (SourcePutting []) [] (CalculatorWaiting :: cs) []
                ExporterWaiting (f ++ rows)).
Proof.
  revert f. induction items as [|item items IH]; intros f Hall.
  - exists []. split; [reflexivity|]. rewrite app_nil_r. apply reach_start.
  - destruct (Hall item (or_introl eq_refl)) as [result Hc].
    destruct (IH (f ++ [result]) (fun i Hi => Hall i (or_intror Hi)))
      as [rows [Hrows Hreach]].
    exists (result :: rows). split.
    + simpl. rewrite Hrows, (calculate_record _ _ _ _ _ Hc).
      destruct item; reflexivity.
    + eapply reachable_trans; [exact (one_record_through _ _ _ _ _ _ Hc)|].
      rewrite <- app_assoc in Hreach. exact Hreach.
Qed.

Lemma all_calculators_time_out (waiting : nat) (src : source_state)
  (cs1 : list calculator_state) (qb : list row) (e : exporter_state)
  (f : list row) :
  reachable py_strip py_int config
    (Pipeline src [] (cs1 ++ repeat CalculatorWaiting waiting) qb e f)
    (Pipeline src [] (cs1 ++ repeat CalculatorReturned waiting) qb e f).
Proof.
  revert cs1. induction waiting as [|w IH]; intros cs1; simpl.
  - apply reach_start.
  - eapply reach_first; [apply step_calculator_timeout|].
    change (cs1 ++ CalculatorReturned :: repeat CalculatorWaiting w)
      with (cs1 ++ [CalculatorReturned] ++ repeat CalculatorWaiting w).
    change (cs1 ++ CalculatorReturned :: repeat CalculatorReturned w)
      with (cs1 ++ [CalculatorReturned] ++ repeat CalculatorReturned w).
    rewrite !app_assoc. apply IH.
Qed.

Lemma returned_calculators_ended (n : nat) :
  forallb calculator_ended (repeat CalculatorReturned n) = true.
Proof. induction n; simpl; [reflexivity | assumption]. Qed.

(** X11.
    The pipeline can do its work: with at least one calculator, and a
    configuration with which the computation returns for every record read,
    there is a run that ends with every process ended, both queues empty and
    one row per record in the file, in the order of the input. *)
Theorem a_complete_run_exists (workers : nat) (lines : list string)
  (now : string) :
  (1 <= workers)%nat ->
  (forall item, In item (ingested py_strip py_int lines) ->
                returns (calculate config now (fst item) (snd item))) ->
  exists s,
    reachable py_strip py_int config (initial workers lines) s /\
    terminated s = true /\
    userdata_queue s = [] /\ export_queue s = [] /\
    map record_of_row (file s) = ingested py_strip py_int lines.
Proof.
  intros Hw Hall. destruct workers as [|w]; [lia|].
  destruct (all_records_through now (ingested py_strip py_int lines)
              (repeat CalculatorWaiting w) [] Hall) as [rows [Hrows Hrun]].
  simpl app in Hrun.
  assert (Hend : forall src f,
             reachable py_strip py_int config
               (Pipeline src [] (repeat CalculatorWaiting (S w)) []
                         ExporterWaiting f)
               (Pipeline src [] (repeat CalculatorReturned (S w)) []
                         ExporterClosed f)).
  { intros src f.
    eapply reachable_trans;
      [exact (all_calculators_time_out (S w) src [] [] ExporterWaiting f)|].
    eapply reach_first; [apply step_exporter_timeout | apply reach_start]. }
  unfold initial.
  destruct (_read_users_data py_strip py_int lines) as [items| |] eqn:Hr.
  - assert (Hing : ingested py_strip py_int lines = items)
      by (unfold ingested; rewrite Hr; reflexivity).
    rewrite Hing in *.
    exists (Pipeline (SourcePutting []) [] (repeat CalculatorReturned (S w)) []
                     ExporterClosed rows).
    split; [|split; [|repeat split; assumption]].
    + eapply reach_first; [apply step_read|].
      unfold after_reading. rewrite Hr.
      eapply reachable_trans; [exact Hrun | apply Hend].
    + unfold terminated. cbn [source calculators exporter source_ended].
      rewrite returned_calculators_ended. reflexivity.
  - assert (Hing : ingested py_strip py_int lines = [])
      by (unfold ingested; rewrite Hr; reflexivity).
    rewrite Hing in *.
    exists (Pipeline SourceDead [] (repeat CalculatorReturned (S w)) []
                     ExporterClosed []).
    split; [|split; [|repeat split]].
    + eapply reach_first; [apply step_read|].
      unfold after_reading. rewrite Hr. apply Hend.
    + unfold terminated. cbn [source calculators exporter source_ended].
      rewrite returned_calculators_ended. reflexivity.
  - assert (Hing : ingested py_strip py_int lines = [])
      by (unfold ingested; rewrite Hr; reflexivity).
    rewrite Hing in *.
    exists (Pipeline SourceDead [] (repeat CalculatorReturned (S w)) []
                     ExporterClosed []).
    split; [|split; [|repeat split]].
    + eapply reach_first; [apply step_read|].
      unfold after_reading. rewrite Hr. apply Hend.
    + unfold terminated. cbn [source calculators exporter source_ended].
      rewrite returned_calculators_ended. reflexivity.
Qed.

(** X12.
    With two calculators the order of the file can be lost: whatever the two
    records of the input, there is a run that ends with the row of the second
    record written before the row of the first. *)
Theorem two_calculators_can_swap_rows (lines : list string)
  (first second : record) (now : string) (row1 row2 : row) :
  _read_users_data py_strip py_int lines = Ret [first; second] ->
  calculate config now (fst first) (snd first) = Ret row1 ->
  calculate config now (fst second) (snd second) = Ret row2 ->
  exists s,
    reachable py_strip py_int config (initial 2 lines) s /\
    terminated s = true /\
    file s = [row2; row1].
Proof.
  intros Hr H1 H2.
  exists (Pipeline (SourcePutting []) []
                   [CalculatorReturned; CalculatorReturned] []
                   ExporterClosed [row2; row1]).
  split; [|split; reflexivity].
  unfold initial. cbn [repeat].
  eapply reach_first; [apply step_read|].
  unfold after_reading. rewrite Hr.
  eapply reach_first; [exact (step_put _ _ _ first [second] [] _ _ _ _)|].
  eapply reach_first; [exact (step_put _ _ _ second [] [first] _ _ _ _)|].
  eapply reach_first;
    [exact (step_calculate _ _ _ now _ first [second] []
              [CalculatorWaiting] _ _ _)|].
  rewrite (after_calculating_returns _ _ _ H1).
  eapply reach_first;
    [exact (step_calculate _ _ _ now _ second []
              [CalculatorHolding row1] [] _ _ _)|].
  rewrite (after_calculating_returns _ _ _ H2).
  eapply reach_first;
    [exact (step_export _ _ _ _ _ [CalculatorHolding row1] row2 [] _ _ _)|].
  eapply reach_first;
    [exact (step_export _ _ _ _ _ [] row1 [CalculatorWaiting] _ _ _)|].
  eapply reach_first; [exact (step_write _ _ _ _ _ _ row2 [row1] [])|].
  eapply reach_first; [exact (step_write _ _ _ _ _ _ row1 [] [row2])|].
  eapply reachable_trans;
    [exact (all_calculators_time_out 2 _ [] [] ExporterWaiting _)|].
  eapply reach_first; [apply step_exporter_timeout | apply reach_start].
Qed.

End RunFacts.

Lemma reachable_counted (py_strip : string -> string)
  (py_int : string -> option Z) (config : section) (s0 s : pipeline) :
  reachable py_strip py_int config s0 s ->
  exists n, reachable_in py_strip py_int config s0 n s.
Proof.
  induction 1 as [|s s' _ [n IH] Hstep].
  - exists 0%nat. constructor.
  - exists (S n). apply (reach_in_step _ _ _ _ n s); assumption.
Qed.

(** A run of the program on two lines, up to the first row written. *)
Lemma first_row_written :
  reachable ascii_strip decimal_int scenario_config
    (initial 1 ["101,10000"; "102,2000"]%string)
    (Pipeline (SourcePutting [("102"%string, 2000%Z)]) [] [CalculatorWaiting]
              [] ExporterWaiting
              [Row "101" 10000 "1050.00" "535.00" "8415.00" "09:00:00"]).
Proof.
  eapply reach_first; [apply step_read|].
  change (after_reading ascii_strip decimal_int
            ["101,10000"; "102,2000"]%string)
    with (SourcePutting [("101"%string, 10000%Z); ("102"%string, 2000%Z)]).
  apply (one_record_through ascii_strip decimal_int scenario_config
           "09:00:00" ("101"%string, 10000%Z)
           (Row "101" 10000 "1050.00" "535.00" "8415.00" "09:00:00")
           [("102"%string, 2000%Z)] [] []).
  reflexivity.
Qed.

Lemma one_calculator_keeps_the_order_witness :
  exists rest,
    ingested ascii_strip decimal_int ["101,10000"; "102,2000"]%string
    = map record_of_row
          [Row "101" 10000 "1050.00" "535.00" "8415.00" "09:00:00"]
      ++ rest.
Proof.
  apply (one_calculator_keeps_the_order ascii_strip decimal_int
           scenario_config _ _ first_row_written).
Defined.

Lemma written_rows_are_computed_from_the_input_witness :
  Forall (fun r => computed scenario_config r /\
                   In (record_of_row r)
                      (ingested ascii_strip decimal_int
                                ["101,10000"; "102,2000"]%string))
         [Row "101" 10000 "1050.00" "535.00" "8415.00" "09:00:00"].
Proof.
  apply (written_rows_are_computed_from_the_input ascii_strip decimal_int
           scenario_config 1 _ _ first_row_written).
Defined.

Lemma runs_are_bounded_witness :
  exists n,
    reachable_in ascii_strip decimal_int scenario_config
      (initial 1 ["101,10000"; "102,2000"]%string) n
      (Pipeline (SourcePutting [("102"%string, 2000%Z)]) []
                [CalculatorWaiting] [] ExporterWaiting
                [Row "101" 10000 "1050.00" "535.00" "8415.00" "09:00:00"]) /\
    (n + 6 <= 11)%nat.
Proof.
  destruct (reachable_counted _ _ _ _ _ first_row_written) as [n Hn].
  exists n. split; [exact Hn|].
  apply (runs_are_bounded ascii_strip decimal_int scenario_config 1 _ n _ Hn).
Defined.

Lemma a_complete_run_exists_witness :
  exists s,
    reachable ascii_strip decimal_int scenario_config
              (initial 1 ["101,10000"; "102,2000"]%string) s /\
    terminated s = true /\
    userdata_queue s = [] /\ export_queue s = [] /\
    map record_of_row (file s)
    = [("101"%string, 10000%Z); ("102"%string, 2000%Z)].
Proof.
  apply (a_complete_run_exists ascii_strip decimal_int scenario_config 1
           ["101,10000"; "102,2000"]%string "09:00:00").
  - lia.
  - intros item [<-|[<-|[]]].
    + apply (calculate_returns scenario_config "09:00:00" "101" 10000
               (insurance_of 3000 20000 (py_sum [0.08; 0.02; 0.005; 0; 0; 0])
                             10000)); reflexivity.
    + apply (calculate_returns scenario_config "09:00:00" "102" 2000
               (insurance_of 3000 20000 (py_sum [0.08; 0.02; 0.005; 0; 0; 0])
                             2000)); reflexivity.
Defined.

Lemma two_calculators_can_swap_rows_witness :
  exists s,
    reachable ascii_strip decimal_int scenario_config
              (initial 2 ["101,10000"; "102,2000"]%string) s /\
    terminated s = true /\
    file s = [Row "102" 2000 "315.00" "0.00" "1685.00" "09:00:00";
              Row "101" 10000 "1050.00" "535.00" "8415.00" "09:00:00"].
Proof.
  apply (two_calculators_can_swap_rows ascii_strip decimal_int
           scenario_config ["101,10000"; "102,2000"]%string
           ("101"%string, 10000%Z) ("102"%string, 2000%Z) "09:00:00");
    reflexivity.
Defined.

(* ================================================================= *)
(** ** The command line *)

Lemma dict_get_set (d : dict) (key value key' : string) :
  dict_get (dict_set d key value) key'
  = if String.eqb key key' then Some value else dict_get d key'.
Proof.
  induction d as [|[k v] rest IH]; simpl.
  - reflexivity.
  - destruct (String.eqb k key) eqn:Hk; simpl.
    + apply String.eqb_eq in Hk. subst k.
      destruct (String.eqb key key'); reflexivity.
    + rewrite IH. destruct (String.eqb k key') eqn:Hk'; [|reflexivity].
      apply String.eqb_eq in Hk'. subst k. rewrite String.eqb_sym, Hk.
      reflexivity.
Qed.

Lemma py_dict_snoc (opts : list (string * string)) (pair : string * string) :
  py_dict (opts ++ [pair]) = dict_set (py_dict opts) (fst pair) (snd pair).
Proof. unfold py_dict. rewrite fold_left_app. reflexivity. Qed.

(** In the [dict] made of the command line an option has the value of its
    last occurrence. *)
Lemma dict_get_py_dict (opts : list (string * string)) (opt : string) :
  dict_get (py_dict opts) opt = last_value opts opt.
Proof.
  unfold last_value.
  induction opts as [|pair opts IH] using rev_ind; [reflexivity|].
  rewrite py_dict_snoc, dict_get_set, rev_unit. simpl.
  destruct (String.eqb (fst pair) opt); [reflexivity | exact IH].
Qed.

Lemma value_after_option_of_command_line (opts : list (string * string))
  (opt : string) :
  _value_after_option (py_dict opts) opt
  = match last_value opts opt with
    | Some value => Ret (Some value)
    | None => if String.eqb opt "-C" then Ret None else Exit
    end.
Proof.
  unfold _value_after_option. rewrite dict_get_py_dict.
  destruct (last_value opts opt); [reflexivity|].
  destruct (String.eqb opt "-C"); reflexivity.
Qed.

(** X13.
    The value the program uses for an option is that of its last occurrence
    on the command line.  Without the option, the city is [None] and the
    program goes on; the configuration file, the user-data file and the
    export file give the error message and the exit. *)
Theorem option_value_is_last_occurrence (opts : list (string * string)) :
  city (py_dict opts) = Ret (last_value opts "-C") /\
  config_path (py_dict opts)
  = match last_value opts "-c" with
    | Some path => Ret (Some path)
    | None => Exit
    end /\
  userdata_path (py_dict opts)
  = match last_value opts "-d" with
    | Some path => Ret (Some path)
    | None => Exit
    end /\
  export_path (py_dict opts)
  = match last_value opts "-o" with
    | Some path => Ret (Some path)
    | None => Exit
    end /\
  forall opt more value,
    last_value (opts ++ (opt, value) :: more) opt
    = match last_value more opt with
      | Some later => Some later
      | None => Some value
      end.
Proof.
  unfold city, config_path, userdata_path, export_path.
  rewrite !value_after_option_of_command_line.
  split; [|split; [|split; [|split]]].
  - destruct (last_value opts "-C"); reflexivity.
  - destruct (last_value opts "-c"); reflexivity.
  - destruct (last_value opts "-d"); reflexivity.
  - destruct (last_value opts "-o"); reflexivity.
  - intros opt more value. unfold last_value.
    rewrite rev_app_distr. simpl. rewrite <- app_assoc. simpl.
    induction (rev more) as [|pair l IH]; simpl.
    + rewrite String.eqb_refl. reflexivity.
    + destruct (String.eqb (fst pair) opt); [reflexivity | exact IH].
Qed.

Lemma dict_get_in_keys (d : dict) (key : string) :
  In key (map fst d) <-> dict_get d key <> None.
Proof.
  induction d as [|[k v] rest IH]; simpl.
  - split; [intros [] | intros H; apply H; reflexivity].
  - destruct (String.eqb k key) eqn:Hk.
    + apply String.eqb_eq in Hk. split; [discriminate | auto].
    + apply String.eqb_neq in Hk. rewrite <- IH. split.
      * intros [H|H]; [contradiction | exact H].
      * auto.
Qed.

Lemma dict_set_keys_in (d : dict) (key value key' : string) :
  In key' (map fst (dict_set d key value)) <->
  key = key' \/ In key' (map fst d).
Proof.
  rewrite !dict_get_in_keys, dict_get_set.
  destruct (String.eqb key key') eqn:Hk.
  - apply String.eqb_eq in Hk. split; [auto | discriminate].
  - apply String.eqb_neq in Hk. split; [auto|].
    intros [H|H]; [contradiction | exact H].
Qed.

Lemma dict_set_keys_nodup (d : dict) (key value : string) :
  NoDup (map fst d) -> NoDup (map fst (dict_set d key value)).
Proof.
  induction d as [|[k v] rest IH]; simpl; intros Hnd.
  - constructor; [intros [] | constructor].
  - inversion Hnd as [|? ? Hnotin Hrest]; subst.
    destruct (String.eqb k key) eqn:Hk; simpl.
    + constructor; assumption.
    + apply String.eqb_neq in Hk. constructor; [|apply IH; assumption].
      rewrite dict_set_keys_in. intros [H|H]; [congruence | contradiction].
Qed.

Lemma py_dict_keys_in (opts : list (string * string)) (key : string) :
  In key (map fst (py_dict opts)) <-> In key (map fst opts).
Proof.
  induction opts as [|pair opts IH] using rev_ind; [reflexivity|].
  rewrite py_dict_snoc, dict_set_keys_in, map_app, in_app_iff, IH. simpl.
  tauto.
Qed.

Lemma py_dict_keys_nodup (opts : list (string * string)) :
  NoDup (map fst (py_dict opts)).
Proof.
  induction opts as [|pair opts IH] using rev_ind; [constructor|].
  rewrite py_dict_snoc. apply dict_set_keys_nodup. exact IH.
Qed.

Lemma nodup_of_one_value {A : Type} (l : list A) (a : A) :
  NoDup l -> (forall x, In x l -> x = a) -> (List.length l <= 1)%nat.
Proof.
  intros Hnd Hall. destruct l as [|x [|y l]]; simpl; try lia.
  exfalso. inversion Hnd as [|? ? Hnotin _]; subst. apply Hnotin.
  rewrite (Hall x), (Hall y); simpl; auto.
Qed.

(** The [dict] of the command line has one key exactly when the command
    line names one option, once or several times. *)
Lemma py_dict_has_one_key (opts : list (string * string)) (key : string) :
  (List.length (py_dict opts) = 1%nat /\ dict_mem (py_dict opts) key = true)
  <->
  (opts <> [] /\ forall pair, In pair opts -> fst pair = key).
Proof.
  pose proof (py_dict_keys_nodup opts) as Hnd.
  pose proof (py_dict_keys_in opts) as Hin.
  unfold dict_mem. split.
  - intros [Hlen Hmem].
    assert (Hkey : In key (map fst (py_dict opts))).
    { apply dict_get_in_keys. destruct (dict_get (py_dict opts) key);
        [discriminate | discriminate Hmem]. }
    destruct (py_dict opts) as [|[k v] [|p rest]] eqn:Hd; try discriminate.
    simpl in Hkey. destruct Hkey as [->|[]].
    split.
    + intros ->. discriminate Hd.
    + intros pair Hpair.
      assert (H : In (fst pair) (map fst opts)) by (apply in_map; exact Hpair).
      apply Hin in H. simpl in H. destruct H as [H|[]]. congruence.
  - intros [Hne Hall].
    assert (Hkeys : forall x, In x (map fst (py_dict opts)) -> x = key).
    { intros x Hx. apply Hin in Hx. apply in_map_iff in Hx.
      destruct Hx as [pair [<- Hpair]]. apply Hall. exact Hpair. }
    assert (Hkey : In key (map fst (py_dict opts))).
    { destruct opts as [|pair opts']; [contradiction|].
      apply Hin. rewrite <- (Hall pair (or_introl eq_refl)).
      simpl. auto. }
    pose proof (nodup_of_one_value _ key Hnd Hkeys) as Hlen.
    rewrite length_map in Hlen. split.
    + destruct (py_dict opts); [destruct Hkey | simpl in *; lia].
    + apply dict_get_in_keys in Hkey.
      destruct (dict_get (py_dict opts) key); [reflexivity | contradiction].
Qed.

(** X14.
    The usage line is printed exactly when the command line names the one
    option [-h], or the one option [--help], once or several times; [-h]
    together with [--help] or with any other option does not print it.  A
    command line [getopt] refuses gives the error message; any other one
    gives the options. *)
Theorem usage_only_for_a_lone_help_option (opts : list (string * string)) :
  _options None = ExitParameterError /\
  (_options (Some opts) = ExitUsage <->
   opts <> [] /\
   ((forall pair, In pair opts -> fst pair = "-h"%string) \/
    (forall pair, In pair opts -> fst pair = "--help"%string))) /\
  (_options (Some opts) <> ExitUsage ->
   _options (Some opts) = Options (py_dict opts)).
Proof.
  split; [reflexivity|].
  pose proof (py_dict_has_one_key opts "-h") as Hh.
  pose proof (py_dict_has_one_key opts "--help") as Hhelp.
  unfold _options.
  destruct (List.length (py_dict opts) =? 1)%nat eqn:Hlen;
    [apply Nat.eqb_eq in Hlen | apply Nat.eqb_neq in Hlen];
    destruct (dict_mem (py_dict opts) "-h") eqn:Hmh;
    destruct (dict_mem (py_dict opts) "--help") eqn:Hmhelp;
    cbn [andb orb]; (split; [split|]);
    try discriminate; try reflexivity; try congruence;
    try (intros _; split; [tauto|]; tauto);
    try (intros [Hne [Hall|Hall]]; exfalso;
         [ destruct (proj2 Hh (conj Hne Hall)); congruence
         | destruct (proj2 Hhelp (conj Hne Hall)); congruence ]).
Qed.

(* ================================================================= *)
(** ** The section chosen and the start of the program *)

(** X15.
    The section used is picked by the upper-cased city: it is [DEFAULT] or
    a section of the file whose name is its own upper-case form, so a
    section named in lower or mixed case is never used, and two spellings
    of a city with the same upper-case form pick the same section.  No city
    and an empty city pick [DEFAULT]; so does a city whose upper-case form
    is not the name of a section, and any other city picks the section of
    that name. *)
Theorem section_is_picked_by_upper_cased_city (py_upper : string -> string)
  (section_names : list string) (chosen_city : option string) :
  (forall x, py_upper (py_upper x) = py_upper x) ->
  py_upper "DEFAULT"%string = "DEFAULT"%string ->
  py_upper (_read_config py_upper section_names chosen_city)
  = _read_config py_upper section_names chosen_city /\
  (_read_config py_upper section_names chosen_city = "DEFAULT"%string \/
   In (_read_config py_upper section_names chosen_city) section_names) /\
  (forall a b,
      a <> EmptyString -> b <> EmptyString -> py_upper a = py_upper b ->
      _read_config py_upper section_names (Some a)
      = _read_config py_upper section_names (Some b)) /\
  _read_config py_upper section_names None = "DEFAULT"%string /\
  _read_config py_upper section_names (Some EmptyString) = "DEFAULT"%string /\
  (forall name,
      name <> EmptyString ->
      (In (py_upper name) section_names ->
       _read_config py_upper section_names (Some name) = py_upper name) /\
      (~ In (py_upper name) section_names ->
       _read_config py_upper section_names (Some name) = "DEFAULT"%string)).
Proof.
  intros Hidem Hdefault. split; [|split; [|split; [|split; [|split]]]];
    try reflexivity.
  - destruct chosen_city as [[|c rest]|]; simpl; try exact Hdefault.
    destruct (existsb _ section_names); [apply Hidem | exact Hdefault].
  - destruct chosen_city as [[|c rest]|]; simpl; auto.
    destruct (existsb _ section_names) eqn:Hex; [right | left; reflexivity].
    apply existsb_exists in Hex. destruct Hex as [name [Hin Heq]].
    apply String.eqb_eq in Heq. rewrite Heq. exact Hin.
  - intros a b Ha Hb Hab.
    destruct a as [|ca ra]; [contradiction|].
    destruct b as [|cb rb]; [contradiction|].
    simpl. rewrite Hab. reflexivity.
  - intros name Hname. destruct name as [|c rest]; [contradiction|].
    simpl.
    destruct (existsb (String.eqb (py_upper (String c rest))) section_names)
      eqn:Hex.
    + split; [reflexivity|]. intros Hnot. exfalso. apply Hnot.
      apply existsb_exists in Hex. destruct Hex as [x [Hin Hx]].
      apply String.eqb_eq in Hx. rewrite Hx. exact Hin.
    + split; [|reflexivity]. intros Hin. exfalso.
      assert (Htrue : existsb (String.eqb (py_upper (String c rest)))
                              section_names = true).
      { apply existsb_exists. exists (py_upper (String c rest)).
        split; [exact Hin | apply String.eqb_refl]. }
      congruence.
Qed.

Lemma upper_char_idempotent (c : ascii) :
  upper_char (upper_char c) = upper_char c.
Proof. destruct c as [[] [] [] [] [] [] [] []]; reflexivity. Qed.

Lemma ascii_upper_idempotent (s : string) :
  ascii_upper (ascii_upper s) = ascii_upper s.
Proof.
  induction s as [|c rest IH]; simpl; [reflexivity|].
  rewrite upper_char_idempotent, IH. reflexivity.
Qed.

Lemma section_is_picked_by_upper_cased_city_witness :
  _read_config ascii_upper ["CHENGDU"; "beijing"]%string (Some "Chengdu"%string)
  = _read_config ascii_upper ["CHENGDU"; "beijing"]%string
                 (Some "chengdu"%string) /\
  _read_config ascii_upper ["CHENGDU"; "beijing"]%string (Some "beijing"%string)
  = "DEFAULT"%string.
Proof.
  destruct (section_is_picked_by_upper_cased_city ascii_upper
              ["CHENGDU"; "beijing"]%string (Some "beijing"%string)
              ascii_upper_idempotent eq_refl) as [_ [_ [H _]]].
  split; [apply H; [discriminate | discriminate | reflexivity] | reflexivity].
Defined.

(** A source that died at its start leaves everything as it is. *)
Lemma dead_source_invariant (py_strip : string -> string)
  (py_int : string -> option Z) (config : section)
  (cs : list calculator_state) (s : pipeline) :
  forallb calculator_idle cs = true ->
  reachable py_strip py_int config
            (Pipeline SourceDead [] cs [] ExporterWaiting []) s ->
  source s = SourceDead /\ userdata_queue s = [] /\
  forallb calculator_idle (calculators s) = true /\
  export_queue s = [] /\ file s = [].
Proof.
  intros Hidle Hreach. induction Hreach as [|s s' _ IH Hstep].
  - simpl. repeat split; auto.
  - destruct IH as [Hsrc [Hqa [Hcs [Hqb Hf]]]].
    destruct Hstep; simpl in *; try discriminate;
      try (rewrite forallb_middle in Hcs; simpl in Hcs;
           rewrite ?andb_false_r in Hcs; try discriminate).
    + repeat split; auto. rewrite forallb_middle. simpl.
      rewrite andb_true_r in Hcs. rewrite andb_true_r. exact Hcs.
    + repeat split; auto.
Qed.

(** X16.
    Before the processes start, the main process needs [-c] and [-o], a
    configuration file the parser can read and an export file it can open,
    and nothing else.  In the order of the text: without [-c] it gives the
    error message and exits; if reading the configuration file raises, the
    exception ends the program, with [-o] or without; without [-o] it gives
    the error message and exits; if the export file cannot be opened, the
    exception ends the program.  Otherwise the export file is open and the
    three processes are started, whether [-d] is given or not.  Without
    [-d] the source process ends at its first statement, nothing is ever put
    on the input queue and the export file stays empty. *)
Theorem startup_needs_config_and_export_options
  (py_upper : string -> string) (opts : list (string * string))
  (sections_of : string -> option (list string))
  (open_for_writing : string -> bool)
  (open_lines : string -> option (list string)) :
  _options (Some opts) <> ExitUsage ->
  (last_value opts "-c" = None ->
   main_startup py_upper (Some opts) sections_of open_for_writing open_lines
   = StartupParameterError) /\
  (forall path,
      last_value opts "-c" = Some path ->
      (sections_of path = None ->
       main_startup py_upper (Some opts) sections_of open_for_writing
                    open_lines
       = StartupRaised) /\
      (forall section_names,
          sections_of path = Some section_names ->
          (last_value opts "-o" = None ->
           main_startup py_upper (Some opts) sections_of open_for_writing
                        open_lines
           = StartupParameterError) /\
          (forall out,
              last_value opts "-o" = Some out ->
              (open_for_writing out = false ->
               main_startup py_upper (Some opts) sections_of open_for_writing
                            open_lines
               = StartupRaised) /\
              (open_for_writing out = true ->
               main_startup py_upper (Some opts) sections_of open_for_writing
                            open_lines
               = StartupDone path
                   (_read_config py_upper section_names
                                 (last_value opts "-C"))
                   out
                   (Pipeline (source_start (py_dict opts) open_lines) []
                             [CalculatorWaiting] [] ExporterWaiting []))))) /\
  (last_value opts "-d" = None ->
   source_start (py_dict opts) open_lines = SourceDead /\
   forall py_strip py_int config s,
     reachable py_strip py_int config
               (Pipeline (source_start (py_dict opts) open_lines) []
                         [CalculatorWaiting] [] ExporterWaiting []) s ->
     userdata_queue s = [] /\ file s = []).
Proof.
  intros Hnot.
  assert (Hopt : _options (Some opts) = Options (py_dict opts)).
  { revert Hnot. unfold _options.
    destruct ((List.length (py_dict opts) =? 1)%nat
              && (dict_mem (py_dict opts) "-h"
                  || dict_mem (py_dict opts) "--help"));
      [intros H; exfalso; apply H; reflexivity | reflexivity]. }
  unfold main_startup. rewrite Hopt.
  unfold config_path, city, export_path, source_start, userdata_path.
  rewrite !value_after_option_of_command_line.
  split; [|split].
  - intros Hc. rewrite Hc. reflexivity.
  - intros path Hc. rewrite Hc. split.
    + intros Hread. rewrite Hread. reflexivity.
    + intros section_names Hread. rewrite Hread.
      destruct (last_value opts "-C") as [chosen_city|];
        (split; [intros Ho; rewrite Ho; reflexivity|]);
        intros out Ho; rewrite Ho;
        (split; intros Hopen; rewrite Hopen; reflexivity).
  - intros Hd. rewrite Hd. simpl. split; [reflexivity|].
    intros py_strip py_int config s Hreach.
    destruct (dead_source_invariant py_strip py_int config
                [CalculatorWaiting] s eq_refl Hreach)
      as [_ [Hqa [_ [_ Hf]]]].
    split; assumption.
Qed.

Lemma startup_needs_config_and_export_options_witness :
  main_startup ascii_upper
               (Some [("-c", "test.cfg"); ("-o", "out.csv")]%string)
               (fun _ => Some []) (fun _ => true) (fun _ => None)
  = StartupDone "test.cfg" "DEFAULT" "out.csv"
                (Pipeline SourceDead [] [CalculatorWaiting] []
                          ExporterWaiting []) /\
  main_startup ascii_upper
               (Some [("-c", "test.cfg"); ("-o", "out.csv")]%string)
               (fun _ => None) (fun _ => true) (fun _ => None)
  = StartupRaised.
Proof.
  assert (Hnot : _options (Some [("-c", "test.cfg"); ("-o", "out.csv")]%string)
                 <> ExitUsage) by discriminate.
  split.
  - destruct (startup_needs_config_and_export_options ascii_upper
                [("-c", "test.cfg"); ("-o", "out.csv")]%string
                (fun _ => Some []) (fun _ => true) (fun _ => None) Hnot)
      as [_ [H _]].
    destruct (H "test.cfg"%string eq_refl) as [_ Hread].
    destruct (Hread [] eq_refl) as [_ Hout].
    destruct (Hout "out.csv"%string eq_refl) as [_ Hdone].
    exact (Hdone eq_refl).
  - destruct (startup_needs_config_and_export_options ascii_upper
                [("-c", "test.cfg"); ("-o", "out.csv")]%string
                (fun _ => None) (fun _ => true) (fun _ => None) Hnot)
      as [_ [H _]].
    destruct (H "test.cfg"%string eq_refl) as [Hraised _].
    exact (Hraised eq_refl).
Defined.

(* ================================================================= *)
(** ** The marginal rate *)

Lemma tax_of_marginal (x y : Q) :
  x <= y ->
  0 <= tax_of y - tax_of x /\ tax_of y - tax_of x <= (45 # 100) * (y - x).
Proof.
  intros Hxy. unfold tax_of, INCOME_TAX_START_POINT.
  destruct (lookup_by_interval (x - 3500))
    as [[Hx Hl]|[[Hx Hl]|[[Hx Hl]|[[Hx Hl]|[[Hx Hl]|[[Hx Hl]|[[Hx Hl]|
        [Hx Hl]]]]]]]];
    rewrite Hl; clear Hl;
    destruct (lookup_by_interval (y - 3500))
      as [[Hy Hl]|[[Hy Hl]|[[Hy Hl]|[[Hy Hl]|[[Hy Hl]|[[Hy Hl]|[[Hy Hl]|
          [Hy Hl]]]]]]]];
    rewrite Hl; clear Hl; unfold quick_tax; simpl; split; lra.
Qed.

(** X17.
    Of two incomes that have a real income, the insurance being computed
    and the income being one that line 181 converts, the one with the
    higher real income pays at least as much tax, and at most 45% of the
    difference more: of every unit of real income gained, at least 0.55 is
    kept. *)
Theorem marginal_rate_is_at_most_the_top_rate (config : section) (a b : Z)
  (withheld_a withheld_b : Q) :
  calc_social_insurance_money config a = Ret withheld_a ->
  calc_social_insurance_money config b = Ret withheld_b ->
  int_too_large a = false -> int_too_large b = false ->
  real_income_of a withheld_a <= real_income_of b withheld_b ->
  exists tax_a remain_a tax_b remain_b,
    income_tax_and_remain config a = Ret (tax_a, remain_a) /\
    income_tax_and_remain config b = Ret (tax_b, remain_b) /\
    tax_a <= tax_b /\
    tax_b - tax_a
    <= (45 # 100)
       * (real_income_of b withheld_b - real_income_of a withheld_a) /\
    (55 # 100) * (real_income_of b withheld_b - real_income_of a withheld_a)
    <= remain_b - remain_a.
Proof.
  intros Ha Hb Hra Hrb Hreal.
  destruct (tax_of_marginal _ _ Hreal) as [Hlow Hhigh].
  destruct (income_tax_and_remain_resolved _ _ _ Ha Hra) as [Ea|[Na Ea]];
    destruct (income_tax_and_remain_resolved _ _ _ Hb Hrb) as [Eb|[Nb Eb]];
    do 4 eexists;
    (split; [exact Ea|]); (split; [exact Eb|]);
    try rewrite Na in *; try rewrite Nb in *;
    (split; [lra|]); (split; lra).
Qed.

Lemma marginal_rate_is_at_most_the_top_rate_witness :
  exists tax_a remain_a tax_b remain_b,
    income_tax_and_remain scenario_config 10000 = Ret (tax_a, remain_a) /\
    income_tax_and_remain scenario_config 50000 = Ret (tax_b, remain_b) /\
    tax_a <= tax_b /\
    tax_b - tax_a <= (45 # 100) * (47900 - 8950) /\
    (55 # 100) * (47900 - 8950) <= remain_b - remain_a.
Proof.
  assert (Ha : calc_social_insurance_money scenario_config 10000
               = Ret (inject_Z 10000 * py_sum [0.08; 0.02; 0.005; 0; 0; 0]))
    by reflexivity.
  assert (Hb : calc_social_insurance_money scenario_config 50000
               = Ret (20000 * py_sum [0.08; 0.02; 0.005; 0; 0; 0]))
    by reflexivity.
  destruct (marginal_rate_is_at_most_the_top_rate scenario_config 10000 50000
              _ _ Ha Hb eq_refl eq_refl)
    as [ta [ra [tb [rb [Ea [Eb [H1 [H2 H3]]]]]]]].
  - vm_compute. discriminate.
  - exists ta, ra, tb, rb.
    assert (Hra : real_income_of 10000
                    (inject_Z 10000 * py_sum [0.08; 0.02; 0.005; 0; 0; 0])
                  == 8950) by reflexivity.
    assert (Hrb : real_income_of 50000
                    (20000 * py_sum [0.08; 0.02; 0.005; 0; 0; 0])
                  == 47900) by reflexivity.
    repeat (split; [assumption|]).
    rewrite Hra, Hrb in H2, H3. split; assumption.
Defined.
